(** * Requirement agent: parsing, classification, extraction and storage

    A shallow embedding of [src/requirement_agent.py] and
    [src/ai_processor.py].

    - Python [str] values are [string]s.  Characters are the 256 code points
      of [ascii] (Latin-1); [str.isspace] and [str.lower] are written out for
      that range.
    - An email is the Python dict built by [_parse_single_email]: a
      [gmap string string].
    - The Mongo collection is the list of its documents, in insertion order;
      [update_one(..., upsert=True)] is written out on that list.
    - The chat-completion client and the wall clock are oracles indexed by
      the number of calls made so far, threaded through a state monad. *)

From stdpp Require Import gmap strings list.
From Stdlib Require Import Ascii String.

Local Open Scope string_scope.
Local Open Scope bool_scope.

(** ** Python string primitives *)

Module PyStr.

(** [c.isspace()] for a code point below 256. *)
Definition isspace (c : ascii) : bool :=
  let n := nat_of_ascii c in
  (((9 <=? n) && (n <=? 13)) || ((28 <=? n) && (n <=? 32))
   || (n =? 133) || (n =? 160))%nat.

(** [c.lower()] for a code point below 256: A-Z, and the Latin-1 capitals
    0xC0-0xDE except the multiplication sign 0xD7. *)
Definition lower_char (c : ascii) : ascii :=
  let n := nat_of_ascii c in
  if (((65 <=? n) && (n <=? 90))
      || ((192 <=? n) && (n <=? 222) && negb (n =? 215)))%nat
  then ascii_of_nat (n + 32) else c.

(** [s.lower()] *)
Fixpoint lower (s : string) : string :=
  match s with
  | EmptyString => EmptyString
  | String c s' => String (lower_char c) (lower s')
  end.

(** [s.startswith(p)] *)
Fixpoint startswith (p s : string) : bool :=
  match p, s with
  | EmptyString, _ => true
  | String _ _, EmptyString => false
  | String a p', String b s' => if Ascii.eqb a b then startswith p' s' else false
  end.

(** [sub in s] *)
Fixpoint contains (sub s : string) : bool :=
  match s with
  | EmptyString => startswith sub EmptyString
  | String _ s' => startswith sub s || contains sub s'
  end.

(** [s.lstrip()], [s.rstrip()], [s.strip()] *)
Fixpoint lstrip (s : string) : string :=
  match s with
  | EmptyString => EmptyString
  | String c s' => if isspace c then lstrip s' else s
  end.

Fixpoint rstrip (s : string) : string :=
  match s with
  | EmptyString => EmptyString
  | String c s' =>
      match rstrip s' with
      | EmptyString => if isspace c then EmptyString else String c EmptyString
      | r => String c r
      end
  end.

Definition strip (s : string) : string := rstrip (lstrip s).

(** Drop the first [n] characters: the slice [s[n:]]. *)
Fixpoint drop_chars (n : nat) (s : string) : string :=
  match n, s with
  | O, _ => s
  | S _, EmptyString => EmptyString
  | S k, String _ s' => drop_chars k s'
  end.

(** [s.split(sep)] for a non-empty [sep]: the text is scanned from the left
    and cut at each occurrence of [sep] that does not overlap the previous
    one.  [skip] counts the characters of a matched separator still to be
    passed over; [cur] is the piece being read.  (Python raises [ValueError]
    on an empty separator; every call site passes a literal.) *)
Fixpoint split_go (sep : string) (skip : nat) (cur : string) (s : string)
  : list string :=
  match s with
  | EmptyString => [cur]
  | String c s' =>
      match skip with
      | S k => split_go sep k cur s'
      | O =>
          if startswith sep s
          then cur :: split_go sep (String.length sep - 1) EmptyString s'
          else split_go sep 0 (cur +:+ String c EmptyString) s'
      end
  end.

Definition split (sep s : string) : list string :=
  match sep with
  | EmptyString => [s]
  | _ => split_go sep 0 EmptyString s
  end.

(** [s.replace(old, '')]: every non-overlapping occurrence of [old], found
    from the left, is removed. *)
Fixpoint remove_go (old : string) (skip : nat) (s : string) : string :=
  match s with
  | EmptyString => EmptyString
  | String c s' =>
      match skip with
      | S k => remove_go old k s'
      | O =>
          if startswith old s
          then remove_go old (String.length old - 1) s'
          else String c (remove_go old 0 s')
      end
  end.

Definition remove_all (old s : string) : string :=
  match old with
  | EmptyString => s
  | _ => remove_go old 0 s
  end.

(** [sep.join(l)] *)
Fixpoint join (sep : string) (l : list string) : string :=
  match l with
  | [] => EmptyString
  | [x] => x
  | x :: l' => x +:+ sep +:+ join sep l'
  end.

(** Truthiness of a [str]: non-empty. *)
Definition nonempty (s : string) : bool :=
  match s with EmptyString => false | _ => true end.

End PyStr.

(** The newline character as a one-character string. *)
Definition NL : string := String (ascii_of_nat 10) EmptyString.

(** ** Data model *)

(** An email is the dict built by [_parse_single_email]: the keys "from",
    "to", "date" and "subject" are present when a header line set them,
    "body" always. *)
Abbreviation Email := (gmap string string).

(** [thread = {'thread_id': ..., 'emails': [...]}] *)
Record Thread := mkThread {
  thread_id : string;
  emails : list Email
}.

(** [d.get(k, default)] and truthiness of a dict. *)
Definition dict_get (k : string) (dflt : string) (d : Email) : string :=
  default dflt (d !! k).

Definition dict_truthy (d : Email) : bool := negb (bool_decide (d = ∅)).

(** ** Thread parser *)

(** The three locals of the loop of [_parse_single_email]. *)
Record parse_state := mkParseState {
  email_data : Email;
  body_lines : list string;
  parsing_body : bool
}.

Definition parse_init : parse_state := mkParseState ∅ [] false.

(** One iteration of [for line in lines]: the [if]/[elif] chain. *)
Definition parse_line (st : parse_state) (line : string) : parse_state :=
  if PyStr.startswith "From:" line then
    mkParseState
      (<["from" := PyStr.strip (PyStr.remove_all "From:" line)]> (email_data st))
      (body_lines st) (parsing_body st)
  else if PyStr.startswith "To:" line then
    mkParseState
      (<["to" := PyStr.strip (PyStr.remove_all "To:" line)]> (email_data st))
      (body_lines st) (parsing_body st)
  else if PyStr.startswith "Date:" line then
    mkParseState
      (<["date" := PyStr.strip (PyStr.remove_all "Date:" line)]> (email_data st))
      (body_lines st) (parsing_body st)
  else if PyStr.startswith "Subject:" line then
    mkParseState
      (<["subject" := PyStr.strip (PyStr.remove_all "Subject:" line)]> (email_data st))
      (body_lines st) true
  else if parsing_body st && negb (String.eqb (PyStr.strip line) "---") then
    mkParseState (email_data st) (body_lines st ++ [PyStr.strip line]) (parsing_body st)
  else st.

(** [[line for line in email_text.split('\n') if line.strip()]] *)
Definition nonblank_lines (email_text : string) : list string :=
  List.filter (fun line => PyStr.nonempty (PyStr.strip line))
              (PyStr.split NL email_text).

Definition _parse_single_email (email_text : string) : Email :=
  let st := foldl parse_line parse_init (nonblank_lines email_text) in
  <["body" := PyStr.join NL (body_lines st)]> (email_data st).

(** One iteration of [for part in email_parts]. *)
Definition collect_email (emails : list Email) (part : string) : list Email :=
  if negb (PyStr.nonempty (PyStr.strip part)) then emails
  else
    let email_data := _parse_single_email part in
    if dict_truthy email_data then emails ++ [email_data] else emails.

(** [block.split('---\n')[1:]] *)
Definition email_parts (block : string) : list string :=
  tail (PyStr.split ("---" +:+ NL) block).

(** [block.strip().split('\n')[0].strip()] *)
Definition block_thread_id (block : string) : string :=
  PyStr.strip (hd EmptyString (PyStr.split NL (PyStr.strip block))).

(** One iteration of [for block in thread_blocks]. *)
Definition collect_thread (threads : list Thread) (block : string) : list Thread :=
  let thread_id := block_thread_id block in
  let emails := foldl collect_email [] (email_parts block) in
  match emails with
  | [] => threads
  | _ => threads ++ [mkThread thread_id emails]
  end.

(** [parse_email_file], from the text read from the file. *)
Definition parse_email_file (content : string) : list Thread :=
  let thread_blocks := tail (PyStr.split "THREAD_ID: " content) in
  foldl collect_thread [] thread_blocks.

(** ** Local keyword heuristics *)

Definition requirement_keywords : list string :=
  [ "requirement"; "need"; "feature"; "functionality";
    "system"; "integration"; "users"; "deployment";
    "timeline"; "alert"; "notification"; "access";
    "permission"; "tracking"; "audit"; "compliance";
    "dashboard"; "report"; "api"; "database";
    "authentication"; "security"; "performance";
    "scalability"; "interface"; "workflow" ].

(** [any(keyword in text for keyword in keywords)] *)
Definition any_keyword_in (keywords : list string) (text : string) : bool :=
  existsb (fun keyword => PyStr.contains keyword text) keywords.

(** The text the classifier looks at for one email. *)
Definition subject_body_text (email : Email) : string :=
  PyStr.lower (dict_get "subject" "" email +:+ " " +:+ dict_get "body" "" email).

(** The loop of [is_requirement_thread_keyword], with its early return. *)
Fixpoint keyword_scan (emails : list Email) : bool :=
  match emails with
  | [] => false
  | email :: rest =>
      if any_keyword_in requirement_keywords (subject_body_text email)
      then true else keyword_scan rest
  end.

Definition is_requirement_thread_keyword (thread : Thread) : bool :=
  keyword_scan (emails thread).

(** ['requirement' if self.is_requirement_thread_keyword(thread) else 'general'] *)
Definition keyword_label (thread : Thread) : string :=
  if is_requirement_thread_keyword thread then "requirement" else "general".

(** A requirement item: the dict written by the AI extractor or the one
    written by the keyword extractor; [extraction_method] is the tag. *)
Inductive RequirementItem :=
| AIItem (extracted_requirements : string) (model_used : option string)
| KeywordItem (text : string) (from : option string) (date : option string).

Definition extraction_method (r : RequirementItem) : string :=
  match r with
  | AIItem _ _ => "AI"
  | KeywordItem _ _ _ => "keyword"
  end.

Definition extraction_keywords : list string := ["need"; "require"; "should"; "must"].

(** One iteration of the loop of [_extract_requirements_basic]. *)
Definition extract_basic_step (requirements : list RequirementItem) (email : Email)
  : list RequirementItem :=
  let body := dict_get "body" "" email in
  if any_keyword_in extraction_keywords (PyStr.lower body)
  then requirements ++ [KeywordItem body (email !! "from") (email !! "date")]
  else requirements.

Definition _extract_requirements_basic (thread : Thread) : list RequirementItem :=
  foldl extract_basic_step [] (emails thread).

(** ** Outcomes, oracles and the state monad *)

(** The outcome of a Python call: a value, or an exception with its message. *)
Inductive result (A : Type) :=
| Ok (a : A)
| Raise (msg : string).
Arguments Ok {A} a.
Arguments Raise {A} msg.

(** The arguments of [client.chat.completions.create] that carry text. *)
Record request := mkRequest {
  req_model : option string;
  req_system : string;
  req_user : string;
  req_max_tokens : nat
}.

(** The chat client.  [chat_create n r] is what the body of the [try] gets
    from the [n]-th call made in the run with request [r]: the text
    [response.choices[0].message.content], or the exception raised on the
    way (network, authentication, malformed response). *)
Record Client := mkClient {
  chat_create : nat -> request -> result string
}.

Record Document := mkDocument {
  doc_thread_id : string;
  doc_category : string;
  doc_emails : list Email;
  doc_email_count : nat;
  doc_requirements : list RequirementItem;
  doc_client : option string;
  doc_subject : option string;
  doc_first_date : option string;
  doc_last_date : option string;
  doc_created_at : Z;
  doc_classification_method : string
}.

(** What the run can change or observe: the documents of the collection
    [requirement_emails] in insertion order, the number of chat calls made
    and the number of times the clock was read. *)
Record World := mkWorld {
  collection : list Document;
  ai_calls : nat;
  clock_reads : nat
}.

Definition M (A : Type) : Type := World -> A * World.

Definition ret {A} (a : A) : M A := fun w => (a, w).

Definition bind {A B} (m : M A) (k : A -> M B) : M B :=
  fun w => let (a, w') := m w in k a w'.

Notation "'do' x <- m ; k" := (bind m (fun x => k))
  (at level 10, x name, m at level 100, k at level 200).

(** ** AIEmailProcessor *)

Module AI.

Record Config := mkConfig {
  OPENAI_API_KEY : option string;
  OPENAI_MODEL : string;
  AZURE_OPENAI_API_KEY : option string;
  AZURE_OPENAI_ENDPOINT : option string;
  AZURE_OPENAI_DEPLOYMENT : option string;
  AZURE_OPENAI_API_VERSION : string
}.

(** The two client constructors of the [openai] package; either may raise. *)
Record SDK := mkSDK {
  AzureOpenAI : option string -> string -> option string -> result Client;
  OpenAI : option string -> result Client
}.

Record AIEmailProcessor := mkAIEmailProcessor {
  client : Client;
  model : option string;
  use_azure : bool
}.

(** Truthiness of an optional string: [None] and [''] are falsy. *)
Definition opt_truthy (o : option string) : bool :=
  match o with
  | Some s => PyStr.nonempty s
  | None => false
  end.

(** [AIEmailProcessor.__init__] *)
Definition init (sdk : SDK) (cfg : Config) : result AIEmailProcessor :=
  if opt_truthy (AZURE_OPENAI_API_KEY cfg) then
    match AzureOpenAI sdk (AZURE_OPENAI_API_KEY cfg) (AZURE_OPENAI_API_VERSION cfg)
                      (AZURE_OPENAI_ENDPOINT cfg) with
    | Ok c => Ok (mkAIEmailProcessor c (AZURE_OPENAI_DEPLOYMENT cfg) true)
    | Raise e => Raise e
    end
  else
    match OpenAI sdk (OPENAI_API_KEY cfg) with
    | Ok c => Ok (mkAIEmailProcessor c (Some (OPENAI_MODEL cfg)) false)
    | Raise e => Raise e
    end.

(** [{email.get(k)}] inside an f-string. *)
Definition fmt_get (k : string) (email : Email) : string :=
  default "None" (email !! k).

Definition classify_email_block (email : Email) : string :=
  "From: " +:+ fmt_get "from" email +:+ NL +:+
  "To: " +:+ fmt_get "to" email +:+ NL +:+
  "Subject: " +:+ fmt_get "subject" email +:+ NL +:+
  "Body: " +:+ fmt_get "body" email.

Definition classify_prompt (emails_text : string) : string :=
  "Analyze the following email thread and classify it as either 'requirement' or 'general'.

A 'requirement' thread contains:
- Technical requirements
- Feature requests
- System specifications
- Project scope discussions
- Business needs

A 'general' thread contains:
- Casual conversations
- Meeting follow-ups without requirements
- Administrative messages
- Holiday schedules
- Thank you notes

Email Thread:
" +:+ emails_text +:+ "

Response format: Just respond with either 'requirement' or 'general'.".

Definition classify_request (p : AIEmailProcessor) (thread : Thread) : request :=
  let emails_text := PyStr.join (NL +:+ NL) (map classify_email_block (emails thread)) in
  mkRequest (model p) "You are an email classification expert."
            (classify_prompt emails_text) 10.

(** The chat call: the oracle is asked at the current call count, which is
    then advanced. *)
Definition call_chat (c : Client) (r : request) : M (result string) :=
  fun w => (chat_create c (ai_calls w) r,
            mkWorld (collection w) (S (ai_calls w)) (clock_reads w)).

(** [classification if classification in ['requirement', 'general'] else 'general'] *)
Definition normalize_label (classification : string) : string :=
  if String.eqb classification "requirement" || String.eqb classification "general"
  then classification else "general".

(** [AIEmailProcessor.classify_email_thread]: the [try] around the chat call
    and its [except Exception] handler. *)
Definition classify_email_thread (p : AIEmailProcessor) (thread : Thread)
  : M (result string) :=
  do r <- call_chat (client p) (classify_request p thread);
  match r with
  | Ok content =>
      let classification := PyStr.lower (PyStr.strip content) in
      ret (Ok (normalize_label classification))
  | Raise _ => ret (Ok "general")
  end.

Definition extract_email_block (email : Email) : string :=
  "From: " +:+ fmt_get "from" email +:+ NL +:+
  "Date: " +:+ fmt_get "date" email +:+ NL +:+
  "Body: " +:+ fmt_get "body" email.

Definition extract_prompt (emails_text : string) : string :=
  "Extract all technical requirements from this email thread.

For each requirement, provide:
1. Requirement text (clear and concise)
2. Category (e.g., functionality, performance, integration, security, deployment)
3. Priority (high, medium, low)

Email Thread:
" +:+ emails_text +:+ "

Format your response as a numbered list with categories.".

Definition extract_request (p : AIEmailProcessor) (thread : Thread) : request :=
  let emails_text := PyStr.join (NL +:+ NL) (map extract_email_block (emails thread)) in
  mkRequest (model p) "You are a requirements extraction expert."
            (extract_prompt emails_text) 1000.

(** [AIEmailProcessor.extract_requirements] *)
Definition extract_requirements (p : AIEmailProcessor) (thread : Thread)
  : M (result (list RequirementItem)) :=
  do r <- call_chat (client p) (extract_request p thread);
  match r with
  | Ok content =>
      let extracted_text := PyStr.strip content in
      ret (Ok [AIItem extracted_text (model p)])
  | Raise _ => ret (Ok [])
  end.

End AI.

(** ** RequirementAgent *)

(** The attributes of the agent the pipeline reads.  [ai_processor] is
    [None] when the attribute was never assigned. *)
Record RequirementAgent := mkAgent {
  use_ai : bool;
  ai_processor : option AI.AIEmailProcessor
}.

(** [RequirementAgent.__init__] *)
Definition RequirementAgent_init (sdk : AI.SDK) (cfg : AI.Config) (use_ai : bool)
  : RequirementAgent :=
  if use_ai then
    match AI.init sdk cfg with
    | Ok p => mkAgent true (Some p)
    | Raise _ => mkAgent false None
    end
  else mkAgent false None.

(** [self.ai_processor.method(thread)]: reading an attribute that was never
    assigned raises [AttributeError]. *)
Definition call_processor {A} (ag : RequirementAgent)
    (method : AI.AIEmailProcessor -> M (result A)) : M (result A) :=
  match ai_processor ag with
  | Some p => method p
  | None => ret (Raise "AttributeError")
  end.

(** [classify_thread] *)
Definition classify_thread (ag : RequirementAgent) (thread : Thread) : M string :=
  if use_ai ag then
    do r <- call_processor ag (fun p => AI.classify_email_thread p thread);
    match r with
    | Ok category => ret category
    | Raise _ => ret (keyword_label thread)
    end
  else ret (keyword_label thread).

(** [extract_requirements] *)
Definition extract_requirements (ag : RequirementAgent) (thread : Thread)
  : M (list RequirementItem) :=
  if use_ai ag then
    do r <- call_processor ag (fun p => AI.extract_requirements p thread);
    match r with
    | Ok requirements => ret requirements
    | Raise _ => ret (_extract_requirements_basic thread)
    end
  else ret (_extract_requirements_basic thread).

(** ** Persistence *)

(** [update_one({'thread_id': key}, {'$set': document}, upsert=True)]: the
    first document whose [thread_id] is [key] gets every field of
    [document]; when there is none, [document] is inserted.  The flag is
    [result.upserted_id] being set. *)
Fixpoint update_one (key : string) (document : Document) (docs : list Document)
  : list Document * bool :=
  match docs with
  | [] => ([document], true)
  | d :: rest =>
      if String.eqb (doc_thread_id d) key then (document :: rest, false)
      else let (rest', upserted) := update_one key document rest in
           (d :: rest', upserted)
  end.

(** [datetime.now()]: the clock is read and the read is counted. *)
Definition read_clock (datetime_now : nat -> Z) : M Z :=
  fun w => (datetime_now (clock_reads w),
            mkWorld (collection w) (ai_calls w) (S (clock_reads w))).

Definition write_document (document : Document) : M bool :=
  fun w =>
    let (docs, upserted) := update_one (doc_thread_id document) document (collection w) in
    (upserted, mkWorld docs (ai_calls w) (clock_reads w)).

(** [thread['emails'][0].get(k) if thread['emails'] else None] and the same
    for the last email. *)
Definition first_get (k : string) (emails : list Email) : option string :=
  match emails with
  | [] => None
  | e :: _ => e !! k
  end.

Definition last_get (k : string) (emails : list Email) : option string :=
  match last emails with
  | None => None
  | Some e => e !! k
  end.

(** The dict [document] of [store_requirement_thread]. *)
Definition make_document (ag : RequirementAgent) (thread : Thread)
    (requirements : list RequirementItem) (created_at : Z) : Document :=
  mkDocument
    (thread_id thread)
    "requirement"
    (emails thread)
    (List.length (emails thread))
    requirements
    (first_get "from" (emails thread))
    (first_get "subject" (emails thread))
    (first_get "date" (emails thread))
    (last_get "date" (emails thread))
    created_at
    (if use_ai ag then "AI" else "keyword").

(** [store_requirement_thread] *)
Definition store_requirement_thread (datetime_now : nat -> Z)
    (ag : RequirementAgent) (thread : Thread) : M bool :=
  do category <- classify_thread ag thread;
  if negb (String.eqb category "requirement") then ret false
  else
    do requirements <- extract_requirements ag thread;
    do created_at <- read_clock datetime_now;
    do _upserted <- write_document (make_document ag thread requirements created_at);
    ret true.

(** ** Orchestrator *)

(** The three counts printed at the end of [process_all_requirements]. *)
Record Summary := mkSummary {
  threads_processed : nat;
  threads_stored : nat;
  threads_skipped : nat
}.

(** The loop [for i, thread in enumerate(threads, 1)]. *)
Fixpoint process_threads (datetime_now : nat -> Z) (ag : RequirementAgent)
    (threads : list Thread) (requirement_count : nat) : M nat :=
  match threads with
  | [] => ret requirement_count
  | thread :: rest =>
      do stored <- store_requirement_thread datetime_now ag thread;
      process_threads datetime_now ag rest
        (if (stored : bool) then requirement_count + 1 else requirement_count)
  end.

(** [process_all_requirements], from the text read from the file. *)
Definition process_all_requirements (datetime_now : nat -> Z)
    (ag : RequirementAgent) (content : string) : M Summary :=
  let threads := parse_email_file content in
  do requirement_count <- process_threads datetime_now ag threads 0;
  ret (mkSummary (List.length threads) requirement_count
                 (List.length threads - requirement_count)).

(** [get_all_requirements] and the count of [get_requirements_summary]. *)
Definition get_all_requirements (w : World) : list Document := collection w.
Definition count_documents (w : World) : nat := List.length (collection w).

(** ** Vocabulary of the statements *)

(** The four header keys with their line prefixes. *)
Definition header_prefixes : list (string * string) :=
  [("from", "From:"); ("to", "To:"); ("date", "Date:"); ("subject", "Subject:")].

Definition is_header (line : string) : bool :=
  PyStr.startswith "From:" line || PyStr.startswith "To:" line
  || PyStr.startswith "Date:" line || PyStr.startswith "Subject:" line.

(** The lines that follow the first line starting with [Subject:]. *)
Fixpoint after_subject (lines : list string) : list string :=
  match lines with
  | [] => []
  | line :: rest =>
      if PyStr.startswith "Subject:" line then rest else after_subject rest
  end.

(** A line that goes to the body once the body is being read. *)
Definition is_body_line (line : string) : bool :=
  negb (is_header line) && negb (String.eqb (PyStr.strip line) "---").

(** The last line of [lines] that starts with [prefix]. *)
Definition last_with_prefix (prefix : string) (lines : list string) : option string :=
  last (List.filter (PyStr.startswith prefix) lines).

(** A segment part that [collect_email] does not skip. *)
Definition nonblank (part : string) : bool := PyStr.nonempty (PyStr.strip part).

(** The label written into [classification_method] by an agent. *)
Definition mode_label (ag : RequirementAgent) : string :=
  if use_ai ag then "AI" else "keyword".

(** The collaborator's answers do not depend on when it is asked. *)
Definition stable_client (c : Client) : Prop :=
  forall n m r, chat_create c n r = chat_create c m r.

Definition stable_agent (ag : RequirementAgent) : Prop :=
  forall p, ai_processor ag = Some p -> stable_client (AI.client p).

(** A document with its [created_at] blanked, to compare documents up to
    that field. *)
Definition erase_created_at (d : Document) : Document :=
  mkDocument (doc_thread_id d) (doc_category d) (doc_emails d) (doc_email_count d)
             (doc_requirements d) (doc_client d) (doc_subject d)
             (doc_first_date d) (doc_last_date d) 0%Z
             (doc_classification_method d).


(** The [thread_id]s held by the collection, in order. *)
Definition stored_ids (w : World) : list string := map doc_thread_id (collection w).

(** The write of [update_one] alone. *)
Definition upsert (d : Document) (docs : list Document) : list Document :=
  fst (update_one (doc_thread_id d) d docs).

(** The world after one chat call. *)
Definition tick_ai (w : World) : World :=
  mkWorld (collection w) (S (ai_calls w)) (clock_reads w).

(** The label the processor makes of the collaborator's [n]-th answer. *)
Definition ai_label (p : AI.AIEmailProcessor) (thread : Thread) (n : nat) : string :=
  match chat_create (AI.client p) n (AI.classify_request p thread) with
  | Ok content => AI.normalize_label (PyStr.lower (PyStr.strip content))
  | Raise _ => "general"
  end.

(** The items the processor makes of the collaborator's [n]-th answer. *)
Definition ai_items (p : AI.AIEmailProcessor) (thread : Thread) (n : nat)
  : list RequirementItem :=
  match chat_create (AI.client p) n (AI.extract_request p thread) with
  | Ok content => [AIItem (PyStr.strip content) (AI.model p)]
  | Raise _ => []
  end.

(** What a line does to the dict: the four header branches of the loop. *)
Definition header_update (line : string) (d : Email) : Email :=
  if PyStr.startswith "From:" line then
    <["from" := PyStr.strip (PyStr.remove_all "From:" line)]> d
  else if PyStr.startswith "To:" line then
    <["to" := PyStr.strip (PyStr.remove_all "To:" line)]> d
  else if PyStr.startswith "Date:" line then
    <["date" := PyStr.strip (PyStr.remove_all "Date:" line)]> d
  else if PyStr.startswith "Subject:" line then
    <["subject" := PyStr.strip (PyStr.remove_all "Subject:" line)]> d
  else d.

(** The body as the specification words it: every non-blank line after the
    first [Subject:] line that is not exactly the separator, newline-joined. *)
Definition body_as_claimed (email_text : string) : string :=
  PyStr.join NL
    (List.filter (fun line => negb (String.eqb line "---"))
                 (after_subject (nonblank_lines email_text))).

(** Classification and extraction give the same results whenever they are
    asked: the agent is in keyword mode, or its collaborator is stable. *)
Definition repeatable (ag : RequirementAgent) : Prop :=
  use_ai ag = false \/ stable_agent ag.

(** A sequence of writes. *)
Definition upsert_all (ops : list Document) (docs : list Document) : list Document :=
  foldl (fun docs d => upsert d docs) docs ops.



(** Label and items of a thread for an agent whose results are repeatable. *)
Definition label_of (ag : RequirementAgent) (thread : Thread) : string :=
  fst (classify_thread ag thread (mkWorld [] 0 0)).

Definition items_of (ag : RequirementAgent) (thread : Thread) : list RequirementItem :=
  fst (extract_requirements ag thread (mkWorld [] 0 0)).

(** The documents a run writes, in order, with [created_at] blanked. *)
Definition written_documents (ag : RequirementAgent) (threads : list Thread)
  : list Document :=
  map (fun thread => make_document ag thread (items_of ag thread) 0)
      (List.filter (fun thread => String.eqb (label_of ag thread) "requirement") threads).

(** [Config.validate]: the list [missing] is built, and [ValueError] is
    raised with the joined names when it is not empty. *)
Definition Config_validate (cfg : AI.Config) : result bool :=
  let missing := [] in
  let missing :=
    if negb (AI.opt_truthy (AI.OPENAI_API_KEY cfg))
       && negb (AI.opt_truthy (AI.AZURE_OPENAI_API_KEY cfg))
    then (missing ++ ["OPENAI_API_KEY or AZURE_OPENAI_API_KEY"])%list else missing in
  let missing :=
    if AI.opt_truthy (AI.AZURE_OPENAI_API_KEY cfg)
       && negb (AI.opt_truthy (AI.AZURE_OPENAI_ENDPOINT cfg))
    then (missing ++ ["AZURE_OPENAI_ENDPOINT"])%list else missing in
  match missing with
  | [] => Ok true
  | _ => Raise ("Missing required configuration: " +:+ PyStr.join ", " missing)
  end.

(** A text that does not begin with a whitespace character. *)
Definition starts_nonspace (s : string) : bool :=
  match s with
  | EmptyString => true
  | String c _ => negb (PyStr.isspace c)
  end.

(** A trimmed, non-empty text. *)
Definition trimmed_nonempty (s : string) : Prop :=
  s <> "" /\ starts_nonspace s = true /\ PyStr.rstrip s = s.

(** The thread blocks of a file, and the thread a block stands for. *)
Definition thread_blocks (content : string) : list string :=
  tail (PyStr.split "THREAD_ID: " content).

Definition has_email (block : string) : bool :=
  existsb nonblank (email_parts block).

Definition thread_of_block (block : string) : Thread :=
  mkThread (block_thread_id block)
           (map _parse_single_email (List.filter nonblank (email_parts block))).

(** The five keys an email can have. *)
Definition email_keys : list string := ["from"; "to"; "date"; "subject"; "body"].

(** The test and the item of one email in [_extract_requirements_basic]. *)
Definition states_requirement (email : Email) : bool :=
  any_keyword_in extraction_keywords (PyStr.lower (dict_get "body" "" email)).

Definition keyword_item (email : Email) : RequirementItem :=
  KeywordItem (dict_get "body" "" email) (email !! "from") (email !! "date").

(** The document the filter [{'thread_id': key}] selects: the first one
    with that id. *)
Definition find_document (key : string) (docs : list Document) : option Document :=
  List.find (fun d => String.eqb (doc_thread_id d) key) docs.

(** The documents of the other threads. *)
Definition other_documents (key : string) (docs : list Document) : list Document :=
  List.filter (fun d => negb (String.eqb (doc_thread_id d) key)) docs.

(** The shape of a document written by [store_requirement_thread]. *)
Definition well_formed_document (d : Document) : Prop :=
  doc_category d = "requirement"
  /\ doc_email_count d = List.length (doc_emails d)
  /\ doc_client d = first_get "from" (doc_emails d)
  /\ doc_subject d = first_get "subject" (doc_emails d)
  /\ doc_first_date d = first_get "date" (doc_emails d)
  /\ doc_last_date d = last_get "date" (doc_emails d).

(** The number of chat calls one classification or one extraction makes. *)
Definition calls_per_query (ag : RequirementAgent) : nat :=
  if use_ai ag then match ai_processor ag with Some _ => 1 | None => 0 end else 0.

(** ** Concrete agents, threads and files used by the examples *)

Definition empty_world : World := mkWorld [] 0 0.

Definition test_config : AI.Config :=
  AI.mkConfig (Some "sk-test") "gpt-4" None None None "2024-02-15-preview".

(** A package whose constructors hand out the client [c]. *)
Definition sdk_with (c : Client) : AI.SDK :=
  AI.mkSDK (fun _ _ _ => Ok c) (fun _ => Ok c).

(** A package whose [OpenAI] constructor refuses a missing key, as the real
    one does. *)
Definition sdk_key_required (c : Client) : AI.SDK :=
  AI.mkSDK (fun _ _ _ => Ok c)
           (fun key => match key with
                       | Some _ => Ok c
                       | None => Raise "The api_key client option must be set"
                       end).

Definition config_without_keys : AI.Config :=
  AI.mkConfig None "gpt-4" None None None "2024-02-15-preview".

(** A collaborator that is down: every call raises. *)
Definition failing_client : Client :=
  mkClient (fun _ _ => Raise "APIConnectionError").


(** A collaborator that always answers with the given text. *)
Definition constant_client (answer : string) : Client :=
  mkClient (fun _ _ => Ok answer).

Definition failing_agent : RequirementAgent :=
  RequirementAgent_init (sdk_with failing_client) test_config true.


Definition keyword_agent : RequirementAgent :=
  RequirementAgent_init (sdk_with failing_client) test_config false.

Definition dashboard_file : string :=
"THREAD_ID: THREAD-1
---
From: pm@client.example
To: dev@vendor.example
Date: 2024-03-01
Subject: Dashboard
We need a dashboard for tracking.
".

Definition dashboard_email : Email :=
  <["body" := "We need a dashboard for tracking."]>
    (<["subject" := "Dashboard"]>
       (<["date" := "2024-03-01"]>
          (<["to" := "dev@vendor.example"]>
             (<["from" := "pm@client.example"]> ∅)))).

Definition dashboard_thread : Thread := mkThread "THREAD-1" [dashboard_email].

Definition scenario_file : string :=
"THREAD_ID: THREAD-A
---
From: alice@example.com
To: dev@example.com
Date: 2024-01-10
Subject: Login
Please add SSO authentication support
---
THREAD_ID: THREAD-B
---
From: bob@example.com
To: all@example.com
Date: 2024-12-20
Subject: Greetings
Happy holidays everyone!
".

(** An email segment whose body holds a line that starts like a header, a
    separator with a trailing blank and an indented line. *)
Definition memo_segment : string :=
"From: ann@example.com
Subject: Plan
To: do list for Monday
--- 
   second line
".

(** * Properties *)

(** ** Equations of the classifier and the extractor *)

Lemma classify_email_thread_eq p thread w :
  AI.classify_email_thread p thread w = (Ok (ai_label p thread (ai_calls w)), tick_ai w).
Proof.
  unfold AI.classify_email_thread, bind, AI.call_chat, ai_label, tick_ai, ret.
  destruct (chat_create _ _ _); reflexivity.
Qed.

Lemma ai_extract_requirements_eq p thread w :
  AI.extract_requirements p thread w = (Ok (ai_items p thread (ai_calls w)), tick_ai w).
Proof.
  unfold AI.extract_requirements, bind, AI.call_chat, ai_items, tick_ai, ret.
  destruct (chat_create _ _ _); reflexivity.
Qed.

Lemma classify_thread_keyword_mode ag thread w :
  use_ai ag = false -> classify_thread ag thread w = (keyword_label thread, w).
Proof. intros H. unfold classify_thread. rewrite H. reflexivity. Qed.

Lemma classify_thread_ai_mode ag p thread w :
  use_ai ag = true -> ai_processor ag = Some p ->
  classify_thread ag thread w = (ai_label p thread (ai_calls w), tick_ai w).
Proof.
  intros Hu Hp. unfold classify_thread, call_processor, bind.
  rewrite Hu, Hp, classify_email_thread_eq. reflexivity.
Qed.

(** The handler of [classify_thread] does fall back to the keyword label when
    the call into the processor raises. *)
Lemma classify_thread_handler ag thread w :
  use_ai ag = true -> ai_processor ag = None ->
  classify_thread ag thread w = (keyword_label thread, w).
Proof.
  intros Hu Hp. unfold classify_thread, call_processor, bind.
  rewrite Hu, Hp. reflexivity.
Qed.

Lemma extract_requirements_keyword_mode ag thread w :
  use_ai ag = false ->
  extract_requirements ag thread w = (_extract_requirements_basic thread, w).
Proof. intros H. unfold extract_requirements. rewrite H. reflexivity. Qed.

Lemma extract_requirements_ai_mode ag p thread w :
  use_ai ag = true -> ai_processor ag = Some p ->
  extract_requirements ag thread w = (ai_items p thread (ai_calls w), tick_ai w).
Proof.
  intros Hu Hp. unfold extract_requirements, call_processor, bind.
  rewrite Hu, Hp, ai_extract_requirements_eq. reflexivity.
Qed.

Lemma extract_requirements_handler ag thread w :
  use_ai ag = true -> ai_processor ag = None ->
  extract_requirements ag thread w = (_extract_requirements_basic thread, w).
Proof.
  intros Hu Hp. unfold extract_requirements, call_processor, bind.
  rewrite Hu, Hp. reflexivity.
Qed.

(** Neither touches the collection or the clock. *)
Lemma classify_thread_frame ag thread w :
  collection (snd (classify_thread ag thread w)) = collection w
  /\ clock_reads (snd (classify_thread ag thread w)) = clock_reads w.
Proof.
  destruct (use_ai ag) eqn:Hu.
  - destruct (ai_processor ag) as [p|] eqn:Hp.
    + rewrite (classify_thread_ai_mode _ _ _ _ Hu Hp). split; reflexivity.
    + rewrite (classify_thread_handler _ _ _ Hu Hp). split; reflexivity.
  - rewrite (classify_thread_keyword_mode _ _ _ Hu). split; reflexivity.
Qed.

Lemma extract_requirements_frame ag thread w :
  collection (snd (extract_requirements ag thread w)) = collection w
  /\ clock_reads (snd (extract_requirements ag thread w)) = clock_reads w.
Proof.
  destruct (use_ai ag) eqn:Hu.
  - destruct (ai_processor ag) as [p|] eqn:Hp.
    + rewrite (extract_requirements_ai_mode _ _ _ _ Hu Hp). split; reflexivity.
    + rewrite (extract_requirements_handler _ _ _ Hu Hp). split; reflexivity.
  - rewrite (extract_requirements_keyword_mode _ _ _ Hu). split; reflexivity.
Qed.

Lemma normalize_label_cases c :
  (c = "requirement" \/ c = "general" -> AI.normalize_label c = c)
  /\ (c <> "requirement" -> c <> "general" -> AI.normalize_label c = "general")
  /\ (AI.normalize_label c = "requirement" \/ AI.normalize_label c = "general").
Proof.
  unfold AI.normalize_label.
  destruct (String.eqb_spec c "requirement") as [->|Hr]; simpl.
  - repeat split; auto. intros H. congruence.
  - destruct (String.eqb_spec c "general") as [->|Hg]; simpl.
    + repeat split; auto.
    + repeat split; auto. intros [H|H]; congruence.
Qed.

(** ** The collaborator's label is normalised *)

(** C8.  Whatever text the classification collaborator returns, the
    processor answers with that text stripped and lower-cased when it is
    'requirement' or 'general', and with 'general' otherwise; an agent in AI
    mode passes that label on unchanged. *)
Theorem classifier_normalizes_response p thread w content :
  chat_create (AI.client p) (ai_calls w) (AI.classify_request p thread) = Ok content ->
  let c := PyStr.lower (PyStr.strip content) in
  exists label,
    fst (AI.classify_email_thread p thread w) = Ok label
    /\ (forall ag, use_ai ag = true -> ai_processor ag = Some p ->
        fst (classify_thread ag thread w) = label)
    /\ (c = "requirement" \/ c = "general" -> label = c)
    /\ (c <> "requirement" -> c <> "general" -> label = "general")
    /\ (label = "requirement" \/ label = "general").
Proof.
  intros Hc c. exists (AI.normalize_label c).
  split; [|split].
  - rewrite classify_email_thread_eq. unfold ai_label. rewrite Hc. reflexivity.
  - intros ag Hu Hp. rewrite (classify_thread_ai_mode _ _ _ _ Hu Hp).
    unfold ai_label. rewrite Hc. reflexivity.
  - apply normalize_label_cases.
Qed.

Lemma classifier_normalizes_response_witness :
  let p := AI.mkAIEmailProcessor (constant_client "  Requirement ") (Some "gpt-4") false in
  let c := PyStr.lower (PyStr.strip "  Requirement ") in
  exists label,
    fst (AI.classify_email_thread p dashboard_thread empty_world) = Ok label
    /\ (forall ag, use_ai ag = true -> ai_processor ag = Some p ->
        fst (classify_thread ag dashboard_thread empty_world) = label)
    /\ (c = "requirement" \/ c = "general" -> label = c)
    /\ (c <> "requirement" -> c <> "general" -> label = "general")
    /\ (label = "requirement" \/ label = "general").
Proof.
  intros p.
  apply (classifier_normalizes_response p dashboard_thread empty_world "  Requirement ").
  reflexivity.
Defined.

Example normalizes_unknown_answer :
  let p := AI.mkAIEmailProcessor (constant_client "Probably a requirement") (Some "gpt-4") false in
  fst (AI.classify_email_thread p dashboard_thread empty_world) = Ok "general".
Proof. reflexivity. Qed.

(** ** The write *)

Lemma upsert_nil d : upsert d [] = [d].
Proof. reflexivity. Qed.

Lemma upsert_cons d x docs :
  upsert d (x :: docs) =
  if String.eqb (doc_thread_id x) (doc_thread_id d) then d :: docs
  else x :: upsert d docs.
Proof.
  unfold upsert. simpl.
  destruct (String.eqb _ _); [reflexivity|].
  destruct (update_one _ _ _); reflexivity.
Qed.

Lemma elem_of_upsert d x docs : x ∈ upsert d docs -> x ∈ docs \/ x = d.
Proof.
  induction docs as [|y docs IH].
  - rewrite upsert_nil. intros H%list_elem_of_singleton. right; assumption.
  - rewrite upsert_cons. destruct (String.eqb _ _).
    + intros [->|H]%elem_of_cons; [right; reflexivity|].
      left. apply elem_of_cons. right; assumption.
    + intros [->|H]%elem_of_cons.
      * left. apply elem_of_cons. left; reflexivity.
      * destruct (IH H) as [H'|H']; [left|right; assumption].
        apply elem_of_cons. right; assumption.
Qed.

Lemma upsert_elem_of d docs : d ∈ upsert d docs.
Proof.
  induction docs as [|y docs IH].
  - rewrite upsert_nil. apply list_elem_of_singleton. reflexivity.
  - rewrite upsert_cons. destruct (String.eqb _ _); apply elem_of_cons; auto.
Qed.

(** [store_requirement_thread] in one equation: the label decides, and a
    stored thread is written once, stamped with the next clock reading. *)
Lemma store_requirement_thread_eq now ag thread w :
  store_requirement_thread now ag thread w =
  let (category, w1) := classify_thread ag thread w in
  if negb (String.eqb category "requirement") then (false, w1)
  else
    let (requirements, w2) := extract_requirements ag thread w1 in
    (true,
     mkWorld (upsert (make_document ag thread requirements (now (clock_reads w2)))
                     (collection w2))
             (ai_calls w2) (S (clock_reads w2))).
Proof.
  unfold store_requirement_thread, bind.
  destruct (classify_thread ag thread w) as [category w1].
  destruct (negb _); [reflexivity|].
  destruct (extract_requirements ag thread w1) as [requirements w2].
  unfold read_clock, write_document, upsert, ret. simpl.
  destruct (update_one _ _ _); reflexivity.
Qed.

(** What one call of [store_requirement_thread] does to the collection. *)
Lemma store_requirement_thread_collection now ag thread w :
  let r := store_requirement_thread now ag thread w in
  (fst r = false /\ collection (snd r) = collection w
   /\ fst (classify_thread ag thread w) <> "requirement")
  \/ (fst r = true /\ fst (classify_thread ag thread w) = "requirement"
      /\ exists requirements created_at,
           collection (snd r) =
           upsert (make_document ag thread requirements created_at) (collection w)).
Proof.
  simpl. rewrite store_requirement_thread_eq.
  pose proof (classify_thread_frame ag thread w) as [Hc _].
  destruct (classify_thread ag thread w) as [category w1]. simpl in *.
  destruct (String.eqb_spec category "requirement") as [->|Hne]; simpl.
  - right.
    pose proof (extract_requirements_frame ag thread w1) as [He _].
    destruct (extract_requirements ag thread w1) as [requirements w2]. simpl in *.
    repeat split. eexists _, _. rewrite He, Hc. reflexivity.
  - left. auto.
Qed.

Lemma process_threads_documents now ag threads count w d :
  d ∈ collection (snd (process_threads now ag threads count w)) ->
  d ∈ collection w \/ doc_classification_method d = mode_label ag.
Proof.
  revert count w. induction threads as [|thread rest IH]; intros count w; simpl.
  - auto.
  - unfold bind.
    pose proof (store_requirement_thread_collection now ag thread w) as Hs.
    destruct (store_requirement_thread now ag thread w) as [stored w1]. simpl in Hs.
    intros Hd. destruct (IH _ _ Hd) as [Hin|Hl]; [|right; assumption].
    destruct Hs as [(_ & Hcol & _)|(_ & _ & requirements & created_at & Hcol)];
      rewrite Hcol in Hin.
    + left; assumption.
    + apply elem_of_upsert in Hin as [Hin| ->]; [left; assumption|].
      right. reflexivity.
Qed.

Lemma process_all_documents now ag content w d :
  d ∈ collection (snd (process_all_requirements now ag content w)) ->
  d ∈ collection w \/ doc_classification_method d = mode_label ag.
Proof.
  unfold process_all_requirements, bind.
  pose proof (process_threads_documents now ag (parse_email_file content) 0 w d) as H.
  destruct (process_threads _ _ _ _ _) as [n w1]. simpl in *. exact H.
Qed.

(** ** A failing collaborator *)

(** Whenever the chat call raises, the processor answers 'general' and
    raises nothing, so the handler of [classify_thread] is never entered. *)
Lemma classify_thread_swallows_failure ag p thread w msg :
  use_ai ag = true -> ai_processor ag = Some p ->
  chat_create (AI.client p) (ai_calls w) (AI.classify_request p thread) = Raise msg ->
  fst (classify_thread ag thread w) = "general".
Proof.
  intros Hu Hp Hc. rewrite (classify_thread_ai_mode _ _ _ _ Hu Hp).
  unfold ai_label. rewrite Hc. reflexivity.
Qed.

Lemma extract_requirements_swallows_failure ag p thread w msg :
  use_ai ag = true -> ai_processor ag = Some p ->
  chat_create (AI.client p) (ai_calls w) (AI.extract_request p thread) = Raise msg ->
  fst (extract_requirements ag thread w) = [].
Proof.
  intros Hu Hp Hc. rewrite (extract_requirements_ai_mode _ _ _ _ Hu Hp).
  unfold ai_items. rewrite Hc. reflexivity.
Qed.

(** C1.  The code at the failing input: an agent in AI mode whose
    collaborator is down classifies the thread of [dashboard_file] as
    'general', although the keyword heuristic labels that thread
    'requirement'; the failure is not propagated. *)
Theorem classify_thread_ai_failure_gives_default :
  parse_email_file dashboard_file = [dashboard_thread]
  /\ use_ai failing_agent = true
  /\ (forall n r, chat_create failing_client n r = Raise "APIConnectionError")
  /\ keyword_label dashboard_thread = "requirement"
  /\ fst (classify_thread failing_agent dashboard_thread empty_world) = "general".
Proof.
  split; [vm_compute; reflexivity|].
  repeat split; vm_compute; reflexivity.
Qed.

(** C2.  The code at the failing input: the same agent extracts nothing from
    the thread of [dashboard_file], although the keyword extractor finds one
    item in it. *)
Theorem extract_requirements_ai_failure_gives_nothing :
  use_ai failing_agent = true
  /\ (forall n r, chat_create failing_client n r = Raise "APIConnectionError")
  /\ _extract_requirements_basic dashboard_thread =
     [KeywordItem "We need a dashboard for tracking."
                  (Some "pm@client.example") (Some "2024-03-01")]
  /\ fst (extract_requirements failing_agent dashboard_thread empty_world) = [].
Proof. repeat split; vm_compute; reflexivity. Qed.

(** ** The recorded classification method *)

(** C3.  The code at the failing input: with a collaborator that raises on
    every call, the thread of [dashboard_file] is not classified by the
    keyword heuristic (which labels it 'requirement') but as 'general', and
    the run stores no document at all, so none is labelled 'keyword'. *)
Lemma raising_classifier_not_keyword_classified :
  (forall n r, chat_create failing_client n r = Raise "APIConnectionError")
  /\ keyword_label dashboard_thread = "requirement"
  /\ fst (classify_thread failing_agent dashboard_thread empty_world)
     <> keyword_label dashboard_thread
  /\ collection (snd (process_all_requirements (fun _ => 0%Z) failing_agent
                        dashboard_file empty_world)) = [].
Proof.
  split; [reflexivity|]. split; [vm_compute; reflexivity|].
  split; [vm_compute; discriminate|]. vm_compute; reflexivity.
Qed.

(** The label of a stored document names the path that classified the
    thread, for every agent [__init__] can build: under 'keyword' the
    keyword heuristic accepted the thread, under 'AI' the chat call returned
    an answer that normalises to 'requirement'. *)
Lemma stored_label_names_path sdk cfg flag now thread w :
  let ag := RequirementAgent_init sdk cfg flag in
  fst (store_requirement_thread now ag thread w) = true ->
  (mode_label ag = "keyword" /\ keyword_label thread = "requirement")
  \/ (mode_label ag = "AI"
      /\ exists p content,
           ai_processor ag = Some p
           /\ chat_create (AI.client p) (ai_calls w) (AI.classify_request p thread)
              = Ok content
           /\ AI.normalize_label (PyStr.lower (PyStr.strip content)) = "requirement").
Proof.
  intros ag Hs.
  destruct (store_requirement_thread_collection now ag thread w)
    as [(Hf & _)|(_ & Hreq & _)]; [congruence|].
  unfold mode_label. destruct (use_ai ag) eqn:Hu.
  - right. split; [reflexivity|].
    assert (Hp : exists p, ai_processor ag = Some p).
    { unfold ag, RequirementAgent_init in *. destruct flag; [|discriminate Hu].
      destruct (AI.init sdk cfg) as [p|msg]; [|discriminate Hu]. exists p; reflexivity. }
    destruct Hp as (p & Hp).
    rewrite (classify_thread_ai_mode _ _ _ _ Hu Hp) in Hreq. cbn [fst] in Hreq.
    unfold ai_label in Hreq.
    destruct (chat_create _ _ _) as [content|msg] eqn:Hc; [|discriminate Hreq].
    exists p, content. repeat split; assumption.
  - left. split; [reflexivity|].
    rewrite (classify_thread_keyword_mode _ _ _ Hu) in Hreq. exact Hreq.
Qed.

(** Every document written by a run carries the mode of the agent, 'AI'
    when [use_ai] is set and 'keyword' otherwise: a stored thread leaves a
    document with its id and that label, and every document of the
    collection after a run was there before or carries that label.  In
    keyword mode every thread is classified by the keyword heuristic and
    every document written is labelled 'keyword'. *)
Theorem classification_method_records_mode now ag :
  (forall thread w,
     fst (store_requirement_thread now ag thread w) = true ->
     exists d, d ∈ collection (snd (store_requirement_thread now ag thread w))
               /\ doc_thread_id d = thread_id thread
               /\ doc_classification_method d = mode_label ag)
  /\ (forall content w d,
        d ∈ collection (snd (process_all_requirements now ag content w)) ->
        d ∈ collection w \/ doc_classification_method d = mode_label ag)
  /\ (use_ai ag = false ->
      (forall thread w, classify_thread ag thread w = (keyword_label thread, w))
      /\ (forall content w d,
            d ∈ collection (snd (process_all_requirements now ag content w)) ->
            d ∈ collection w \/ doc_classification_method d = "keyword")).
Proof.
  split; [|split].
  - intros thread w Hs.
    destruct (store_requirement_thread_collection now ag thread w)
      as [(Hf & _)|(_ & _ & requirements & created_at & Hcol)].
    + congruence.
    + exists (make_document ag thread requirements created_at).
      rewrite Hcol. split; [apply upsert_elem_of|]. split; reflexivity.
  - intros content w d. apply process_all_documents.
  - intros Hu. split.
    + intros thread w. apply classify_thread_keyword_mode; assumption.
    + intros content w d Hd. apply process_all_documents in Hd.
      unfold mode_label in Hd. rewrite Hu in Hd. exact Hd.
Qed.

Lemma classification_method_records_mode_witness :
  use_ai keyword_agent = false
  /\ (forall d,
        d ∈ collection (snd (process_all_requirements (fun _ => 0%Z) keyword_agent
                               dashboard_file empty_world)) ->
        d ∈ collection empty_world \/ doc_classification_method d = "keyword")
  /\ map doc_classification_method
       (collection (snd (process_all_requirements (fun _ => 0%Z) keyword_agent
                           dashboard_file empty_world))) = ["keyword"].
Proof.
  split; [reflexivity|]. split; [|vm_compute; reflexivity].
  intros d.
  apply (proj2 (proj2 (proj2 (classification_method_records_mode
                                 (fun _ => 0%Z) keyword_agent))
                      eq_refl)).
Defined.

(** ** Failed construction of the processor *)

(** C10.  When the construction of the AI processor raises, the agent
    created with [use_ai=True] has [use_ai] false; for the whole run every
    thread is then classified and extracted by the local heuristics, without
    any call to the collaborator, and every document written is labelled
    'keyword'. *)
Theorem failed_construction_runs_in_keyword_mode sdk cfg msg :
  AI.init sdk cfg = Raise msg ->
  let ag := RequirementAgent_init sdk cfg true in
  use_ai ag = false
  /\ (forall thread w, classify_thread ag thread w = (keyword_label thread, w))
  /\ (forall thread w,
        extract_requirements ag thread w = (_extract_requirements_basic thread, w))
  /\ (forall now content w,
        ai_calls (snd (process_all_requirements now ag content w)) = ai_calls w)
  /\ (forall now content w d,
        d ∈ collection (snd (process_all_requirements now ag content w)) ->
        d ∈ collection w \/ doc_classification_method d = "keyword").
Proof.
  intros Hinit ag.
  assert (Hu : use_ai ag = false).
  { unfold ag, RequirementAgent_init. rewrite Hinit. reflexivity. }
  split; [exact Hu|]. split; [|split; [|split]].
  - intros thread w. apply classify_thread_keyword_mode, Hu.
  - intros thread w. apply extract_requirements_keyword_mode, Hu.
  - intros now content w. unfold process_all_requirements, bind.
    assert (Hloop : forall threads count w0,
               ai_calls (snd (process_threads now ag threads count w0)) = ai_calls w0).
    { induction threads as [|thread rest IH]; intros count w0; simpl; [reflexivity|].
      unfold bind. rewrite store_requirement_thread_eq.
      rewrite (classify_thread_keyword_mode _ _ _ Hu).
      destruct (negb _).
      - apply IH.
      - rewrite (extract_requirements_keyword_mode _ _ _ Hu). rewrite IH. reflexivity. }
    specialize (Hloop (parse_email_file content) 0 w).
    destruct (process_threads _ _ _ _ _). exact Hloop.
  - intros now content w d Hd. apply process_all_documents in Hd.
    unfold mode_label in Hd. rewrite Hu in Hd. exact Hd.
Qed.

Lemma failed_construction_runs_in_keyword_mode_witness :
  AI.init (sdk_key_required failing_client) config_without_keys
  = Raise "The api_key client option must be set"
  /\ use_ai (RequirementAgent_init (sdk_key_required failing_client)
                                   config_without_keys true) = false.
Proof.
  split; [reflexivity|].
  apply (failed_construction_runs_in_keyword_mode
           (sdk_key_required failing_client) config_without_keys
           "The api_key client option must be set" eq_refl).
Defined.

(** ** End-to-end scenario *)

(** C7.  For the file [scenario_file], with the two threads THREAD-A (one
    email, body 'Please add SSO authentication support') and THREAD-B (one
    email, body 'Happy holidays everyone!'), a run in keyword mode on an
    empty collection stores exactly one document, for THREAD-A with category
    'requirement', and reports 2 threads processed, 1 stored, 1 skipped. *)
Theorem end_to_end_scenario sdk cfg now :
  let ag := RequirementAgent_init sdk cfg false in
  let threads := parse_email_file scenario_file in
  let run := process_all_requirements now ag scenario_file empty_world in
  map thread_id threads = ["THREAD-A"; "THREAD-B"]
  /\ map (fun t => map (fun e => e !! "body") (emails t)) threads
     = [[Some "Please add SSO authentication support"];
        [Some "Happy holidays everyone!"]]
  /\ fst run = mkSummary 2 1 1
  /\ map (fun d => (doc_thread_id d, doc_category d)) (collection (snd run))
     = [("THREAD-A", "requirement")]
  /\ count_documents (snd run) = 1.
Proof.
  intros ag threads run.
  change ag with (mkAgent false None) in run.
  repeat split; vm_compute; reflexivity.
Qed.

(** ** String lemmas *)

Lemma startswith_head a p b s :
  PyStr.startswith (String a p) (String b s) = true -> a = b.
Proof.
  simpl. destruct (Ascii.eqb_spec a b); [auto|discriminate].
Qed.

(** Two prefixes with different first characters exclude each other. *)
Lemma startswith_exclusive a p b q s :
  a <> b -> PyStr.startswith (String a p) s = true ->
  PyStr.startswith (String b q) s = false.
Proof.
  intros Hab Hp. destruct s as [|c s]; [reflexivity|].
  apply startswith_head in Hp. subst c.
  simpl. destruct (Ascii.eqb_spec b a); [congruence|reflexivity].
Qed.

Lemma remove_go_skip old k s :
  PyStr.remove_go old k s = PyStr.remove_go old 0 (PyStr.drop_chars k s).
Proof.
  revert s. induction k as [|k IH]; intros s.
  - destruct s; reflexivity.
  - destruct s as [|c s]; [reflexivity|]. simpl. apply IH.
Qed.

Lemma remove_go_absent old s :
  PyStr.contains old s = false -> PyStr.remove_go old 0 s = s.
Proof.
  induction s as [|c s IH]; [reflexivity|].
  cbn [PyStr.contains PyStr.remove_go].
  intros [H1 H2]%orb_false_iff. rewrite H1. f_equal. apply IH, H2.
Qed.

(** [line.replace(prefix, '')] is the line without its prefix when the
    prefix text does not occur again. *)
Lemma remove_all_prefix_once a p line :
  let prefix := String a p in
  PyStr.startswith prefix line = true ->
  PyStr.contains prefix (PyStr.drop_chars (String.length prefix) line) = false ->
  PyStr.remove_all prefix line = PyStr.drop_chars (String.length prefix) line.
Proof.
  intros prefix Hs Hc. destruct line as [|c line]; [discriminate|].
  unfold PyStr.remove_all, prefix.
  cbn [PyStr.remove_go]. fold prefix. rewrite Hs.
  rewrite remove_go_skip.
  replace (String.length prefix - 1) with (String.length p) by (simpl; lia).
  simpl in Hc. apply remove_go_absent, Hc.
Qed.

Arguments PyStr.startswith : simpl never.
Arguments PyStr.strip : simpl never.
Arguments PyStr.remove_all : simpl never.
Arguments PyStr.contains : simpl never.

(** ** The scan of one email segment *)

(** A line starts with at most one of the four prefixes. *)
Lemma header_cases line :
  let F := PyStr.startswith "From:" line in
  let T := PyStr.startswith "To:" line in
  let D := PyStr.startswith "Date:" line in
  let S := PyStr.startswith "Subject:" line in
  (F = true /\ T = false /\ D = false /\ S = false)
  \/ (F = false /\ T = true /\ D = false /\ S = false)
  \/ (F = false /\ T = false /\ D = true /\ S = false)
  \/ (F = false /\ T = false /\ D = false /\ S = true)
  \/ (F = false /\ T = false /\ D = false /\ S = false).
Proof.
  intros F T D S. subst F T D S.
  destruct (PyStr.startswith "From:" line) eqn:HF;
    [left|right; destruct (PyStr.startswith "To:" line) eqn:HT;
      [left|right; destruct (PyStr.startswith "Date:" line) eqn:HD;
        [left|right; destruct (PyStr.startswith "Subject:" line) eqn:HS;
          [left|right]]]];
    repeat split;
    (eapply startswith_exclusive; [|eassumption]; discriminate).
Qed.

Lemma is_header_subject line :
  is_header line = false -> PyStr.startswith "Subject:" line = false.
Proof.
  unfold is_header. intros H. apply orb_false_iff in H as [_ H]. exact H.
Qed.

(** One iteration of the loop, by the kind of the line. *)
Lemma parse_line_eq st line :
  parse_line st line =
  if is_header line then
    mkParseState (header_update line (email_data st)) (body_lines st)
                 (parsing_body st || PyStr.startswith "Subject:" line)
  else if parsing_body st && negb (String.eqb (PyStr.strip line) "---") then
    mkParseState (email_data st) (body_lines st ++ [PyStr.strip line]) (parsing_body st)
  else st.
Proof.
  unfold parse_line, is_header, header_update.
  destruct (header_cases line)
    as [(HF & HT & HD & HS)|[(HF & HT & HD & HS)|[(HF & HT & HD & HS)
       |[(HF & HT & HD & HS)|(HF & HT & HD & HS)]]]];
    rewrite HF, ?HT, ?HD, ?HS; cbn [orb]; rewrite ?orb_false_r, ?orb_true_r;
    reflexivity.
Qed.

(** The body lines gathered by the loop. *)
Lemma parse_fold_body lines st :
  body_lines (foldl parse_line st lines) =
  (body_lines st ++
   map PyStr.strip
       (List.filter is_body_line
                    (if parsing_body st then lines else after_subject lines)))%list.
Proof.
  revert st. induction lines as [|line rest IH]; intros st.
  - simpl. destruct (parsing_body st); simpl; rewrite app_nil_r; reflexivity.
  - cbn [foldl]. rewrite IH, parse_line_eq. clear IH.
    cbn [after_subject].
    destruct (is_header line) eqn:Hh.
    + assert (Hb : is_body_line line = false).
      { unfold is_body_line. rewrite Hh. reflexivity. }
      cbn [body_lines parsing_body].
      destruct (parsing_body st), (PyStr.startswith "Subject:" line);
        cbn [orb List.filter]; rewrite ?Hb; reflexivity.
    + assert (Hb : is_body_line line = negb (String.eqb (PyStr.strip line) "---")).
      { unfold is_body_line. rewrite Hh. reflexivity. }
      rewrite (is_header_subject _ Hh).
      destruct (parsing_body st) eqn:Hp; cbn [andb]; [|rewrite ?Hp; reflexivity].
      cbn [List.filter]. rewrite Hb.
      destruct (negb (String.eqb (PyStr.strip line) "---"));
        cbn [body_lines parsing_body]; rewrite ?Hp; [|reflexivity].
      cbn [map]. rewrite <- app_assoc. reflexivity.
Qed.

Lemma parse_fold_email_data lines st :
  email_data (foldl parse_line st lines) =
  foldl (fun d line => header_update line d) (email_data st) lines.
Proof.
  revert st. induction lines as [|line rest IH]; intros st; [reflexivity|].
  cbn [foldl]. rewrite IH, parse_line_eq. f_equal.
  destruct (is_header line) eqn:Hh; [reflexivity|].
  assert (Hd : header_update line (email_data st) = email_data st).
  { unfold header_update, is_header in *.
    apply orb_false_iff in Hh as [Hh HS].
    apply orb_false_iff in Hh as [Hh HD].
    apply orb_false_iff in Hh as [HF HT].
    rewrite HF, HT, HD, HS. reflexivity. }
  rewrite Hd. destruct (_ && _); reflexivity.
Qed.

(** A header line sets its own key and leaves the other keys alone. *)
Lemma header_update_lookup key prefix line (d : Email) :
  (key, prefix) ∈ header_prefixes ->
  header_update line d !! key =
  if PyStr.startswith prefix line
  then Some (PyStr.strip (PyStr.remove_all prefix line))
  else d !! key.
Proof.
  unfold header_prefixes. rewrite !elem_of_cons, elem_of_nil.
  unfold header_update.
  destruct (header_cases line)
    as [(HF & HT & HD & HS)|[(HF & HT & HD & HS)|[(HF & HT & HD & HS)
       |[(HF & HT & HD & HS)|(HF & HT & HD & HS)]]]];
    intros [H|[H|[H|[H|[]]]]]; inversion H; subst key prefix;
    rewrite HF, ?HT, ?HD, ?HS;
    first [reflexivity | apply lookup_insert_eq | apply lookup_insert_ne; discriminate].
Qed.

Lemma header_fold_lookup key prefix lines (d : Email) :
  (key, prefix) ∈ header_prefixes ->
  foldl (fun d line => header_update line d) d lines !! key =
  match last_with_prefix prefix lines with
  | Some line => Some (PyStr.strip (PyStr.remove_all prefix line))
  | None => d !! key
  end.
Proof.
  intros Hk. revert d. induction lines as [|line rest IH]; intros d; [reflexivity|].
  cbn [foldl]. rewrite IH. unfold last_with_prefix. cbn [List.filter].
  rewrite (header_update_lookup _ _ _ _ Hk).
  destruct (PyStr.startswith prefix line); [|reflexivity].
  rewrite last_cons. destruct (last _); reflexivity.
Qed.

Lemma parse_single_email_body email_text :
  _parse_single_email email_text !! "body" =
  Some (PyStr.join NL
          (map PyStr.strip
               (List.filter is_body_line (after_subject (nonblank_lines email_text))))).
Proof.
  unfold _parse_single_email. cbv zeta. rewrite lookup_insert_eq.
  rewrite parse_fold_body. reflexivity.
Qed.

Lemma parse_single_email_header key prefix email_text :
  (key, prefix) ∈ header_prefixes ->
  _parse_single_email email_text !! key =
  match last_with_prefix prefix (nonblank_lines email_text) with
  | Some line => Some (PyStr.strip (PyStr.remove_all prefix line))
  | None => None
  end.
Proof.
  intros Hk. unfold _parse_single_email. cbv zeta.
  rewrite lookup_insert_ne.
  - rewrite parse_fold_email_data, (header_fold_lookup _ _ _ _ Hk).
    destruct (last_with_prefix _ _); [reflexivity|]. apply lookup_empty.
  - unfold header_prefixes in Hk. rewrite !elem_of_cons, elem_of_nil in Hk.
    destruct Hk as [H|[H|[H|[H|[]]]]]; inversion H; discriminate.
Qed.

Lemma last_filter_true {A} (P : A -> bool) l x :
  last (List.filter P l) = Some x -> P x = true.
Proof.
  intros H. apply last_Some_elem_of, list_elem_of_In, filter_In in H. apply H.
Qed.

(** C4, as stated, fails on [memo_segment]: the line 'To: do list for
    Monday' follows the subject line, yet it is not appended to the body but
    sets the 'to' field; the line '--- ' is not exactly the separator, yet
    it is left out; the indented line is appended trimmed. *)
Lemma header_line_after_subject_not_in_body :
  nonblank_lines memo_segment =
    ["From: ann@example.com"; "Subject: Plan"; "To: do list for Monday";
     "--- "; "   second line"]
  /\ body_as_claimed memo_segment =
     "To: do list for Monday" +:+ NL +:+ "--- " +:+ NL +:+ "   second line"
  /\ _parse_single_email memo_segment !! "body" = Some "second line"
  /\ _parse_single_email memo_segment !! "to" = Some "do list for Monday"
  /\ _parse_single_email memo_segment !! "body" <> Some (body_as_claimed memo_segment).
Proof.
  repeat split; try (vm_compute; reflexivity). vm_compute. discriminate.
Qed.

(** C4, amended.  The non-blank lines of a segment are scanned in order.
    For each of 'From:', 'To:', 'Date:', 'Subject:' the field is set by the
    last line that starts with the prefix, wherever that line stands; when
    the prefix text does not occur again in that line, the field is the line
    with the prefix stripped and the remainder trimmed; the field is absent
    when no line starts with the prefix.  The body is the newline-join, in
    the original order, of the trimmed text of every line that comes after
    the first 'Subject:' line, starts with none of the four prefixes and
    whose trimmed text is not '---'; all other lines are dropped. *)
Theorem parse_single_email_scan email_text :
  let lines := nonblank_lines email_text in
  let e := _parse_single_email email_text in
  (forall key prefix line,
     (key, prefix) ∈ header_prefixes ->
     last_with_prefix prefix lines = Some line ->
     PyStr.contains prefix (PyStr.drop_chars (String.length prefix) line) = false ->
     e !! key = Some (PyStr.strip (PyStr.drop_chars (String.length prefix) line)))
  /\ (forall key prefix,
        (key, prefix) ∈ header_prefixes ->
        last_with_prefix prefix lines = None -> e !! key = None)
  /\ e !! "body" =
     Some (PyStr.join NL
             (map PyStr.strip (List.filter is_body_line (after_subject lines)))).
Proof.
  intros lines e. split; [|split].
  - intros key prefix line Hk Hl Hc. unfold e.
    rewrite (parse_single_email_header _ _ _ Hk). fold lines. rewrite Hl.
    do 2 f_equal.
    pose proof (last_filter_true _ _ _ Hl) as Hs.
    unfold header_prefixes in Hk. rewrite !elem_of_cons, elem_of_nil in Hk.
    destruct Hk as [H|[H|[H|[H|[]]]]]; inversion H; subst key prefix;
      apply remove_all_prefix_once; assumption.
  - intros key prefix Hk Hl. unfold e.
    rewrite (parse_single_email_header _ _ _ Hk). fold lines. rewrite Hl. reflexivity.
  - apply parse_single_email_body.
Qed.

Lemma parse_single_email_scan_witness :
  last_with_prefix "To:" (nonblank_lines memo_segment) = Some "To: do list for Monday"
  /\ _parse_single_email memo_segment !! "to" = Some "do list for Monday"
  /\ last_with_prefix "Date:" (nonblank_lines memo_segment) = None
  /\ _parse_single_email memo_segment !! "date" = None
  /\ _parse_single_email memo_segment !! "body" = Some "second line".
Proof.
  pose proof (parse_single_email_scan memo_segment) as (Hset & Hunset & Hbody).
  split; [vm_compute; reflexivity|]. split.
  { apply (Hset "to" "To:" "To: do list for Monday").
    - unfold header_prefixes. rewrite !elem_of_cons. right; left; reflexivity.
    - vm_compute; reflexivity.
    - vm_compute; reflexivity. }
  split; [vm_compute; reflexivity|]. split.
  { apply (Hunset "date" "Date:").
    - unfold header_prefixes. rewrite !elem_of_cons. right; right; left; reflexivity.
    - vm_compute; reflexivity. }
  rewrite Hbody. vm_compute. reflexivity.
Defined.

(** ** Segments, emails and threads *)

Lemma nonempty_true s : PyStr.nonempty s = true <-> s <> "".
Proof. destruct s; simpl; split; intros H; congruence. Qed.

Lemma parse_single_email_truthy email_text :
  dict_truthy (_parse_single_email email_text) = true.
Proof.
  unfold dict_truthy, _parse_single_email. cbv zeta.
  apply negb_true_iff, bool_decide_eq_false, insert_non_empty.
Qed.

Lemma parse_fold_no_header lines :
  Forall (fun line => is_header line = false) lines ->
  foldl parse_line parse_init lines = parse_init.
Proof.
  induction 1 as [|line rest Hh _ IH]; [reflexivity|].
  cbn [foldl]. rewrite parse_line_eq, Hh. exact IH.
Qed.

(** The loop over the segments of a block keeps one email per non-blank
    segment, in order. *)
Lemma collect_emails_eq parts acc :
  foldl collect_email acc parts =
  (acc ++ map _parse_single_email (List.filter nonblank parts))%list.
Proof.
  revert acc. induction parts as [|part rest IH]; intros acc.
  - simpl. rewrite app_nil_r. reflexivity.
  - cbn [foldl List.filter]. rewrite IH. unfold collect_email, nonblank.
    destruct (PyStr.nonempty (PyStr.strip part)); cbn [negb]; [|reflexivity].
    cbv zeta. rewrite parse_single_email_truthy. cbn [map]. rewrite <- app_assoc. reflexivity.
Qed.

(** C9.  For every segment that is not whitespace-only, the parsed record
    has a 'body' key and is truthy, so the loop of [parse_email_file] appends
    it to the emails of the thread; when no line of the segment starts with
    'From:', 'To:', 'Date:' or 'Subject:', the record is just an empty body. *)
Theorem nonblank_segment_yields_email part :
  PyStr.strip part <> "" ->
  let e := _parse_single_email part in
  (exists body, e !! "body" = Some body)
  /\ dict_truthy e = true
  /\ (forall emails, collect_email emails part = (emails ++ [e])%list)
  /\ (Forall (fun line => is_header line = false) (nonblank_lines part) ->
      e = {["body" := ""]}).
Proof.
  intros Hne e. split; [|split; [|split]].
  - eexists. apply parse_single_email_body.
  - apply parse_single_email_truthy.
  - intros emails. unfold collect_email.
    apply nonempty_true in Hne. rewrite Hne. cbn [negb]. cbv zeta.
    rewrite parse_single_email_truthy. reflexivity.
  - intros Hh. unfold e, _parse_single_email. cbv zeta.
    rewrite (parse_fold_no_header _ Hh). reflexivity.
Qed.

Lemma nonblank_segment_yields_email_witness :
  let part := "hello team" +:+ NL +:+ "see you on Monday" +:+ NL in
  PyStr.strip part <> ""
  /\ _parse_single_email part = {["body" := ""]}
  /\ collect_email [] part = [{["body" := ""]}].
Proof.
  intros part.
  assert (Hne : PyStr.strip part <> "") by (vm_compute; discriminate).
  pose proof (nonblank_segment_yields_email part Hne) as (_ & _ & Hc & He).
  assert (Hh : Forall (fun line => is_header line = false) (nonblank_lines part)).
  { vm_compute. repeat constructor. }
  split; [exact Hne|]. split; [exact (He Hh)|].
  rewrite (Hc []), (He Hh). reflexivity.
Defined.

Lemma collect_threads_from_blocks blocks acc thread :
  thread ∈ foldl collect_thread acc blocks ->
  thread ∈ acc
  \/ (emails thread <> []
      /\ exists block,
           block ∈ blocks
           /\ thread_id thread = block_thread_id block
           /\ emails thread =
              map _parse_single_email (List.filter nonblank (email_parts block))).
Proof.
  revert acc. induction blocks as [|block rest IH]; intros acc; [left; assumption|].
  cbn [foldl]. intros H. apply IH in H as [H|(Hne & b & Hb & Hrest)].
  - unfold collect_thread in H. rewrite collect_emails_eq in H. cbn [app] in H.
    destruct (map _ _) as [|e es] eqn:He; [left; assumption|].
    apply elem_of_app in H as [H|H]; [left; assumption|].
    apply list_elem_of_singleton in H. subst thread. right.
    split; [discriminate|]. exists block. cbn [thread_id emails].
    split; [apply elem_of_cons; left; reflexivity|]. split; [reflexivity|].
    symmetry; exact He.
  - right. split; [exact Hne|]. exists b.
    split; [apply elem_of_cons; right; exact Hb|exact Hrest].
Qed.

(** C5.  Every thread returned by the parser has at least one email, each
    parsed from a segment that is not blank, and a block none of whose
    segments is non-blank adds no thread; the run classifies, extracts and
    stores the parser's threads only.  A thread whose label is not
    'requirement' is not stored: [store_requirement_thread] returns false and
    leaves the collection as it was. *)
Theorem empty_and_general_threads_not_stored :
  (forall content thread,
     thread ∈ parse_email_file content ->
     emails thread <> []
     /\ exists block,
          emails thread =
          map _parse_single_email (List.filter nonblank (email_parts block)))
  /\ (forall threads block,
        Forall (fun part => nonblank part = false) (email_parts block) ->
        collect_thread threads block = threads)
  /\ (forall now ag content w,
        process_all_requirements now ag content w =
        let (n, w') := process_threads now ag (parse_email_file content) 0 w in
        (mkSummary (List.length (parse_email_file content)) n
                   (List.length (parse_email_file content) - n), w'))
  /\ (forall now ag thread w,
        fst (classify_thread ag thread w) <> "requirement" ->
        fst (store_requirement_thread now ag thread w) = false
        /\ collection (snd (store_requirement_thread now ag thread w)) = collection w).
Proof.
  split; [|split; [|split]].
  - intros content thread H. unfold parse_email_file in H. cbv zeta in H.
    apply collect_threads_from_blocks in H as [H|(Hne & block & _ & _ & He)].
    + apply elem_of_nil in H. destruct H.
    + split; [exact Hne|]. exists block. exact He.
  - intros threads block Hb. unfold collect_thread.
    rewrite collect_emails_eq.
    assert (Hf : List.filter nonblank (email_parts block) = []).
    { induction Hb as [|part rest Hp _ IH]; [reflexivity|].
      cbn [List.filter]. rewrite Hp. exact IH. }
    rewrite Hf. reflexivity.
  - intros now ag content w. unfold process_all_requirements, bind, ret.
    destruct (process_threads _ _ _ _ _); reflexivity.
  - intros now ag thread w Hc.
    destruct (store_requirement_thread_collection now ag thread w)
      as [(Hf & Hcol & _)|(_ & Hreq & _)]; [auto|contradiction].
Qed.

Lemma empty_and_general_threads_not_stored_witness :
  let greeting := mkThread "THREAD-B" [{["body" := "Happy holidays everyone!"]}] in
  fst (classify_thread keyword_agent greeting empty_world) <> "requirement"
  /\ fst (store_requirement_thread (fun _ => 0%Z) keyword_agent greeting empty_world)
     = false
  /\ collection (snd (store_requirement_thread (fun _ => 0%Z) keyword_agent greeting
                        empty_world)) = [].
Proof.
  intros greeting.
  assert (Hc : fst (classify_thread keyword_agent greeting empty_world) <> "requirement")
    by (vm_compute; discriminate).
  split; [exact Hc|].
  apply (proj2 (proj2 (proj2 empty_and_general_threads_not_stored))
           (fun _ => 0%Z) keyword_agent greeting empty_world Hc).
Defined.

(** ** Sequences of writes *)








Lemma upsert_ids d docs :
  map doc_thread_id (upsert d docs) =
  if bool_decide (doc_thread_id d ∈ map doc_thread_id docs)
  then map doc_thread_id docs
  else (map doc_thread_id docs ++ [doc_thread_id d])%list.
Proof.
  induction docs as [|x docs IH].
  - reflexivity.
  - rewrite upsert_cons. cbn [map].
    destruct (String.eqb_spec (doc_thread_id x) (doc_thread_id d)) as [He|Hne].
    + rewrite bool_decide_eq_true_2 by (rewrite He; apply elem_of_cons; auto).
      cbn [map]. rewrite He. reflexivity.
    + cbn [map]. rewrite IH.
      destruct (bool_decide (doc_thread_id d ∈ map doc_thread_id docs)) eqn:Hd.
      * apply bool_decide_eq_true in Hd.
        rewrite bool_decide_eq_true_2 by (apply elem_of_cons; auto). reflexivity.
      * apply bool_decide_eq_false in Hd.
        rewrite bool_decide_eq_false_2; [reflexivity|].
        intros [H|H]%elem_of_cons; [congruence|contradiction].
Qed.


Lemma upsert_erase d docs :
  map erase_created_at (upsert d docs) =
  upsert (erase_created_at d) (map erase_created_at docs).
Proof.
  induction docs as [|x docs IH]; [reflexivity|].
  rewrite upsert_cons. cbn [map]. rewrite upsert_cons.
  change (doc_thread_id (erase_created_at x)) with (doc_thread_id x).
  change (doc_thread_id (erase_created_at d)) with (doc_thread_id d).
  destruct (String.eqb _ _); [reflexivity|]. cbn [map]. rewrite IH. reflexivity.
Qed.

(** ** Running the pipeline again *)

Lemma repeatable_classify ag thread w :
  repeatable ag -> fst (classify_thread ag thread w) = label_of ag thread.
Proof.
  intros Hr. unfold label_of.
  destruct (use_ai ag) eqn:Hu.
  - destruct (ai_processor ag) as [p|] eqn:Hp.
    + rewrite !(classify_thread_ai_mode _ _ _ _ Hu Hp). cbn [fst ai_calls].
      destruct Hr as [Hr|Hr]; [congruence|].
      unfold ai_label. rewrite (Hr p Hp (ai_calls w) 0). reflexivity.
    + rewrite !(classify_thread_handler _ _ _ Hu Hp). reflexivity.
  - rewrite !(classify_thread_keyword_mode _ _ _ Hu). reflexivity.
Qed.

Lemma repeatable_extract ag thread w :
  repeatable ag -> fst (extract_requirements ag thread w) = items_of ag thread.
Proof.
  intros Hr. unfold items_of.
  destruct (use_ai ag) eqn:Hu.
  - destruct (ai_processor ag) as [p|] eqn:Hp.
    + rewrite !(extract_requirements_ai_mode _ _ _ _ Hu Hp). cbn [fst ai_calls].
      destruct Hr as [Hr|Hr]; [congruence|].
      unfold ai_items. rewrite (Hr p Hp (ai_calls w) 0). reflexivity.
    + rewrite !(extract_requirements_handler _ _ _ Hu Hp). reflexivity.
  - rewrite !(extract_requirements_keyword_mode _ _ _ Hu). reflexivity.
Qed.

(** The loop of a run, up to [created_at]: the documents of the threads
    labelled 'requirement' are written in order, and counted. *)
Lemma process_threads_run now ag threads count w :
  repeatable ag ->
  map erase_created_at (collection (snd (process_threads now ag threads count w)))
  = upsert_all (written_documents ag threads) (map erase_created_at (collection w))
  /\ fst (process_threads now ag threads count w)
     = count + List.length (written_documents ag threads).
Proof.
  intros Hr. revert count w.
  induction threads as [|thread rest IH]; intros count w.
  - simpl. split; [reflexivity|lia].
  - cbn [process_threads]. unfold bind. rewrite store_requirement_thread_eq.
    pose proof (repeatable_classify ag thread w Hr) as Hl.
    pose proof (classify_thread_frame ag thread w) as [Hc _].
    destruct (classify_thread ag thread w) as [category w1].
    cbn [fst snd] in Hl, Hc. subst category.
    unfold written_documents. cbn [List.filter].
    destruct (String.eqb (label_of ag thread) "requirement") eqn:Hq; cbn [negb].
    + pose proof (repeatable_extract ag thread w1 Hr) as Hi.
      pose proof (extract_requirements_frame ag thread w1) as [He _].
      destruct (extract_requirements ag thread w1) as [items w2].
      cbn [fst snd] in Hi, He. subst items.
      destruct (IH (count + 1)
                   (mkWorld (upsert (make_document ag thread (items_of ag thread)
                                                   (now (clock_reads w2)))
                                    (collection w2))
                            (ai_calls w2) (S (clock_reads w2)))) as [IH1 IH2].
      split.
      * rewrite IH1. cbn [collection map upsert_all foldl].
        rewrite upsert_erase, He, Hc. reflexivity.
      * rewrite IH2. cbn [map List.length]. fold (written_documents ag rest). lia.
    + destruct (IH count w1) as [IH1 IH2]. split.
      * rewrite IH1, Hc. reflexivity.
      * exact IH2.
Qed.


Lemma process_all_snd now ag content w :
  snd (process_all_requirements now ag content w) =
  snd (process_threads now ag (parse_email_file content) 0 w).
Proof.
  unfold process_all_requirements, bind, ret.
  destruct (process_threads _ _ _ _ _); reflexivity.
Qed.

Lemma process_all_fst now ag content w :
  fst (process_all_requirements now ag content w) =
  let n := fst (process_threads now ag (parse_email_file content) 0 w) in
  mkSummary (List.length (parse_email_file content)) n
            (List.length (parse_email_file content) - n).
Proof.
  unfold process_all_requirements, bind, ret.
  destruct (process_threads _ _ _ _ _); reflexivity.
Qed.





(** * Further properties of the code *)

(** ** Splitting and joining *)

Lemma append_cons x (a b : string) : String x a +:+ b = String x (a +:+ b).
Proof. reflexivity. Qed.

Lemma append_assoc' (a b c : string) : (a +:+ b) +:+ c = a +:+ (b +:+ c).
Proof.
  induction a as [|x a IH]; [reflexivity|]. rewrite !append_cons, IH. reflexivity.
Qed.

Lemma append_empty_r (a : string) : a +:+ "" = a.
Proof.
  induction a as [|x a IH]; [reflexivity|]. rewrite append_cons, IH. reflexivity.
Qed.

Lemma split_go_nonempty sep k cur s : PyStr.split_go sep k cur s <> [].
Proof.
  revert k cur. induction s as [|c s IH]; intros k cur; [discriminate|].
  cbn [PyStr.split_go]. destruct k; [|apply IH].
  destruct (PyStr.startswith sep (String c s)); [discriminate|apply IH].
Qed.

Lemma join_cons sep x l :
  l <> [] -> PyStr.join sep (x :: l) = x +:+ sep +:+ PyStr.join sep l.
Proof. destruct l; [congruence|reflexivity]. Qed.

Lemma startswith_drop p s :
  PyStr.startswith p s = true -> s = p +:+ PyStr.drop_chars (String.length p) s.
Proof.
  revert s. induction p as [|a p IH]; intros s H; [reflexivity|].
  destruct s as [|b s]; [discriminate|].
  pose proof (startswith_head _ _ _ _ H) as ->.
  unfold PyStr.startswith in H. fold PyStr.startswith in H.
  rewrite Ascii.eqb_refl in H.
  cbn [String.length PyStr.drop_chars]. rewrite append_cons. f_equal. apply IH, H.
Qed.

Lemma join_split_go a p k cur s :
  PyStr.join (String a p) (PyStr.split_go (String a p) k cur s)
  = cur +:+ PyStr.drop_chars k s.
Proof.
  revert k cur. induction s as [|c s IH]; intros k cur.
  - destruct k; cbn; rewrite append_empty_r; reflexivity.
  - cbn [PyStr.split_go]. destruct k as [|k]; [|apply IH].
    destruct (PyStr.startswith (String a p) (String c s)) eqn:Hs.
    + rewrite join_cons by apply split_go_nonempty. rewrite IH.
      cbn [PyStr.drop_chars]. f_equal.
      rewrite (startswith_drop _ _ Hs) at 1.
      cbn [String.length PyStr.drop_chars Nat.sub]. rewrite Nat.sub_0_r. reflexivity.
    + rewrite IH. cbn [PyStr.drop_chars]. rewrite append_assoc'. reflexivity.
Qed.

(** X1.  Splitting loses nothing: for every non-empty separator and every
    text, [sep.join(text.split(sep))] is the text again.  So the thread
    blocks, the email segments and the lines the parser works on can be
    joined back to the file. *)
Theorem join_split_roundtrip sep text :
  sep <> "" -> PyStr.join sep (PyStr.split sep text) = text.
Proof.
  intros Hs. destruct sep as [|a p]; [contradiction|].
  unfold PyStr.split. rewrite join_split_go. reflexivity.
Qed.

Lemma join_split_roundtrip_witness :
  PyStr.split ("---" +:+ NL) ("THREAD-1" +:+ NL +:+ "---" +:+ NL +:+ "From: a" +:+ NL)
  = ["THREAD-1" +:+ NL; "From: a" +:+ NL]
  /\ PyStr.join "THREAD_ID: " (PyStr.split "THREAD_ID: " scenario_file) = scenario_file.
Proof.
  split; [vm_compute; reflexivity|].
  apply (join_split_roundtrip "THREAD_ID: " scenario_file). discriminate.
Defined.

Lemma split_go_absent sep cur s :
  PyStr.contains sep s = false ->
  PyStr.split_go sep 0 cur s = [cur +:+ s].
Proof.
  revert cur. induction s as [|c s IH]; intros cur H.
  - cbn. rewrite append_empty_r. reflexivity.
  - unfold PyStr.contains in H. fold PyStr.contains in H.
    apply orb_false_iff in H as [H1 H2].
    cbn [PyStr.split_go]. rewrite H1, (IH _ H2), append_assoc'. reflexivity.
Qed.

(** A text without the separator is one piece. *)
Lemma split_absent sep s :
  PyStr.contains sep s = false -> PyStr.split sep s = [s].
Proof.
  intros H. destruct sep as [|a p]; [reflexivity|].
  unfold PyStr.split. rewrite (split_go_absent _ _ _ H). reflexivity.
Qed.

(** ** Trimming *)

Lemma lstrip_starts_nonspace s : starts_nonspace (PyStr.lstrip s) = true.
Proof.
  induction s as [|c s IH]; [reflexivity|].
  cbn [PyStr.lstrip]. destruct (PyStr.isspace c) eqn:Hc; [exact IH|].
  cbn. rewrite Hc. reflexivity.
Qed.

Lemma lstrip_fixed s : starts_nonspace s = true -> PyStr.lstrip s = s.
Proof.
  destruct s as [|c s]; [reflexivity|]. cbn. intros H.
  apply negb_true_iff in H. rewrite H. reflexivity.
Qed.

Lemma rstrip_starts_nonspace s :
  starts_nonspace s = true -> starts_nonspace (PyStr.rstrip s) = true.
Proof.
  destruct s as [|c s]; [reflexivity|]. cbn [starts_nonspace PyStr.rstrip].
  intros H. destruct (PyStr.rstrip s).
  - apply negb_true_iff in H. rewrite H. cbn. rewrite H. reflexivity.
  - exact H.
Qed.

Lemma rstrip_cons c s :
  PyStr.rstrip (String c s) =
  match PyStr.rstrip s with
  | EmptyString => if PyStr.isspace c then EmptyString else String c EmptyString
  | String d r => String c (String d r)
  end.
Proof. cbn [PyStr.rstrip]. destruct (PyStr.rstrip s); reflexivity. Qed.

Lemma rstrip_idem s : PyStr.rstrip (PyStr.rstrip s) = PyStr.rstrip s.
Proof.
  induction s as [|c s IH]; [reflexivity|].
  rewrite rstrip_cons. destruct (PyStr.rstrip s) as [|d r] eqn:Hr.
  - destruct (PyStr.isspace c) eqn:Hc; [reflexivity|].
    rewrite rstrip_cons. cbn [PyStr.rstrip]. rewrite Hc. reflexivity.
  - rewrite rstrip_cons, IH. reflexivity.
Qed.

Lemma strip_lstrip_fixed s : PyStr.lstrip (PyStr.strip s) = PyStr.strip s.
Proof.
  unfold PyStr.strip. apply lstrip_fixed, rstrip_starts_nonspace, lstrip_starts_nonspace.
Qed.

Lemma strip_rstrip_fixed s : PyStr.rstrip (PyStr.strip s) = PyStr.strip s.
Proof. unfold PyStr.strip. apply rstrip_idem. Qed.

(** Trimming a trimmed text changes nothing. *)
Lemma strip_idem s : PyStr.strip (PyStr.strip s) = PyStr.strip s.
Proof.
  unfold PyStr.strip at 1. rewrite strip_lstrip_fixed. apply strip_rstrip_fixed.
Qed.

Lemma rstrip_append a b :
  b <> "" -> PyStr.rstrip b = b -> PyStr.rstrip (a +:+ b) = a +:+ b.
Proof.
  intros Hb Hr. induction a as [|c a IH]; [exact Hr|].
  rewrite append_cons, rstrip_cons, IH.
  destruct (a +:+ b) eqn:Hab; [|reflexivity].
  destruct a; [cbn in Hab; contradiction|discriminate].
Qed.

Lemma lstrip_append a b :
  a <> "" -> starts_nonspace a = true -> PyStr.lstrip (a +:+ b) = a +:+ b.
Proof.
  intros Ha Hs. destruct a as [|c a]; [contradiction|].
  rewrite append_cons. apply lstrip_fixed. exact Hs.
Qed.

Lemma strip_trimmed_nonempty s :
  PyStr.strip s <> "" -> trimmed_nonempty (PyStr.strip s).
Proof.
  intros H. split; [exact H|]. split.
  - unfold PyStr.strip. apply rstrip_starts_nonspace, lstrip_starts_nonspace.
  - apply strip_rstrip_fixed.
Qed.

Lemma join_trimmed_nonempty l :
  l <> [] -> Forall trimmed_nonempty l -> trimmed_nonempty (PyStr.join NL l).
Proof.
  intros Hl Hf. induction Hf as [|x l Hx Hf IH]; [contradiction|].
  destruct l as [|y l]; [exact Hx|].
  rewrite join_cons by discriminate.
  destruct (IH ltac:(discriminate)) as (Hn & Hs & Hr).
  destruct Hx as (Hxn & Hxs & Hxr).
  split; [|split].
  - destruct x; [contradiction|discriminate].
  - destruct x; [contradiction|exact Hxs].
  - rewrite <- append_assoc'. apply rstrip_append; assumption.
Qed.

Lemma trimmed_strip_fixed s : trimmed_nonempty s -> PyStr.strip s = s.
Proof.
  intros (_ & Hs & Hr). unfold PyStr.strip. rewrite (lstrip_fixed _ Hs). exact Hr.
Qed.

(** ** The parser, block by block *)

Lemma filter_nil_existsb {A} (P : A -> bool) l :
  List.filter P l = [] <-> existsb P l = false.
Proof.
  induction l as [|x l IH]; [split; reflexivity|].
  cbn [List.filter existsb]. destruct (P x); cbn [orb]; [split; discriminate|exact IH].
Qed.

Lemma collect_thread_eq threads block :
  collect_thread threads block =
  if has_email block then (threads ++ [thread_of_block block])%list else threads.
Proof.
  unfold collect_thread, has_email, thread_of_block.
  rewrite collect_emails_eq. cbn [app].
  destruct (existsb nonblank (email_parts block)) eqn:He.
  - destruct (List.filter nonblank (email_parts block)) as [|x l] eqn:Hf.
    + apply filter_nil_existsb in Hf. congruence.
    + reflexivity.
  - apply filter_nil_existsb in He. rewrite He. reflexivity.
Qed.

Lemma collect_threads_eq blocks acc :
  foldl collect_thread acc blocks =
  (acc ++ map thread_of_block (List.filter has_email blocks))%list.
Proof.
  revert acc. induction blocks as [|block rest IH]; intros acc.
  - cbn. rewrite app_nil_r. reflexivity.
  - cbn [foldl List.filter]. rewrite IH, collect_thread_eq.
    destruct (has_email block); [|reflexivity].
    cbn [map]. rewrite <- app_assoc. reflexivity.
Qed.

Lemma parse_email_file_eq content :
  parse_email_file content =
  map thread_of_block (List.filter has_email (thread_blocks content)).
Proof. unfold parse_email_file. cbv zeta. apply collect_threads_eq. Qed.

(** X2.  A file in which the marker 'THREAD_ID: ' does not occur, the empty
    file in particular, has no threads: the text before the first marker is
    discarded, whatever it holds. *)
Theorem no_marker_no_threads content :
  PyStr.contains "THREAD_ID: " content = false -> parse_email_file content = [].
Proof.
  intros H. rewrite parse_email_file_eq. unfold thread_blocks.
  rewrite (split_absent _ _ H). reflexivity.
Qed.

Lemma no_marker_no_threads_witness :
  parse_email_file "" = []
  /\ parse_email_file ("From: ann@example.com" +:+ NL +:+ "Subject: Plan" +:+ NL
                       +:+ "We need a dashboard." +:+ NL) = [].
Proof.
  split; apply no_marker_no_threads; vm_compute; reflexivity.
Defined.

(** X3.  A thread block in which the separator line '---' followed by a
    newline does not occur yields no thread, even when it holds header and
    body lines: everything before the first separator is taken for the
    thread id line and dropped. *)
Theorem block_without_separator_dropped block :
  PyStr.contains ("---" +:+ NL) block = false ->
  email_parts block = []
  /\ forall threads, collect_thread threads block = threads.
Proof.
  intros H.
  assert (Hp : email_parts block = []).
  { unfold email_parts. rewrite (split_absent _ _ H). reflexivity. }
  split; [exact Hp|]. intros threads.
  rewrite collect_thread_eq. unfold has_email. rewrite Hp. reflexivity.
Qed.

Lemma block_without_separator_dropped_witness :
  let block := "THREAD-9" +:+ NL +:+ "From: ann@example.com" +:+ NL
               +:+ "Subject: Plan" +:+ NL +:+ "We need a dashboard." +:+ NL in
  thread_blocks ("THREAD_ID: " +:+ block) = [block]
  /\ PyStr.contains ("---" +:+ NL) block = false
  /\ collect_thread [] block = [].
Proof.
  intros block.
  assert (H : PyStr.contains ("---" +:+ NL) block = false) by (vm_compute; reflexivity).
  split; [vm_compute; reflexivity|]. split; [exact H|].
  apply (proj2 (block_without_separator_dropped block H)).
Defined.


(** ** The fields of a parsed email *)

Lemma header_update_other key line (d : Email) :
  key <> "from" -> key <> "to" -> key <> "date" -> key <> "subject" ->
  header_update line d !! key = d !! key.
Proof.
  intros H1 H2 H3 H4. unfold header_update.
  repeat (destruct (PyStr.startswith _ line);
          [apply lookup_insert_ne; congruence|]).
  reflexivity.
Qed.

Lemma parse_single_email_other key email_text :
  ~ In key email_keys -> _parse_single_email email_text !! key = None.
Proof.
  intros Hk. unfold email_keys in Hk. cbn [In] in Hk.
  unfold _parse_single_email. cbv zeta.
  rewrite lookup_insert_ne by (intros E; subst key; tauto).
  rewrite parse_fold_email_data.
  generalize (nonblank_lines email_text). intros lines.
  assert (Hg : forall d : Email, d !! key = None ->
               foldl (fun d line => header_update line d) d lines !! key = None).
  { induction lines as [|line rest IH]; intros d Hd; [exact Hd|].
    cbn [foldl]. apply IH. rewrite header_update_other; [exact Hd|..];
      intros E; subst key; tauto. }
  apply Hg, lookup_empty.
Qed.

Lemma after_subject_incl lines line :
  In line (after_subject lines) -> In line lines.
Proof.
  induction lines as [|l rest IH]; [auto|].
  cbn [after_subject]. destruct (PyStr.startswith "Subject:" l); intros H.
  - right; exact H.
  - right; apply IH, H.
Qed.

Lemma nonblank_lines_nonblank email_text line :
  In line (nonblank_lines email_text) -> PyStr.strip line <> "".
Proof.
  unfold nonblank_lines. intros H. apply filter_In in H as [_ H].
  apply nonempty_true, H.
Qed.

Lemma body_lines_trimmed email_text :
  Forall trimmed_nonempty
    (map PyStr.strip
         (List.filter is_body_line (after_subject (nonblank_lines email_text)))).
Proof.
  apply Forall_forall. intros x Hx. apply list_elem_of_In, in_map_iff in Hx.
  destruct Hx as (line & <- & Hl). apply filter_In in Hl as [Hl _].
  apply strip_trimmed_nonempty, (nonblank_lines_nonblank email_text).
  apply after_subject_incl, Hl.
Qed.

Lemma parse_single_email_trimmed email_text key value :
  _parse_single_email email_text !! key = Some value -> PyStr.strip value = value.
Proof.
  intros H.
  destruct (decide (key = "body")) as [->|Hb].
  { rewrite parse_single_email_body in H. injection H as <-.
    destruct (map PyStr.strip _) as [|x l] eqn:Hl; [reflexivity|].
    apply trimmed_strip_fixed, join_trimmed_nonempty; [discriminate|].
    rewrite <- Hl. apply body_lines_trimmed. }
  assert (Hh : forall prefix, (key, prefix) ∈ header_prefixes ->
                              PyStr.strip value = value).
  { intros prefix Hk. rewrite (parse_single_email_header _ _ _ Hk) in H.
    destruct (last_with_prefix _ _); [|discriminate].
    injection H as <-. apply strip_idem. }
  destruct (decide (key = "from")) as [->|H1].
  { apply (Hh "From:"). unfold header_prefixes. rewrite !elem_of_cons. auto. }
  destruct (decide (key = "to")) as [->|H2].
  { apply (Hh "To:"). unfold header_prefixes. rewrite !elem_of_cons. auto. }
  destruct (decide (key = "date")) as [->|H3].
  { apply (Hh "Date:"). unfold header_prefixes. rewrite !elem_of_cons. auto. }
  destruct (decide (key = "subject")) as [->|H4].
  { apply (Hh "Subject:"). unfold header_prefixes. rewrite !elem_of_cons. auto 6. }
  rewrite parse_single_email_other in H; [discriminate|].
  unfold email_keys. cbn [In]. intros [?|[?|[?|[?|[?|[]]]]]]; congruence.
Qed.

Lemma parsed_thread_block content thread :
  thread ∈ parse_email_file content ->
  exists block, thread = thread_of_block block.
Proof.
  rewrite parse_email_file_eq. intros H.
  apply list_elem_of_In, in_map_iff in H as (block & <- & _). exists block; reflexivity.
Qed.

(** X5.  Everything the parser returns is trimmed: the id of every thread,
    and every value of every email (the header fields and the body), have
    no leading or trailing whitespace. *)
Theorem parsed_values_are_trimmed content thread :
  thread ∈ parse_email_file content ->
  PyStr.strip (thread_id thread) = thread_id thread
  /\ forall email key value,
       email ∈ emails thread -> email !! key = Some value ->
       PyStr.strip value = value.
Proof.
  intros H. apply parsed_thread_block in H as (block & ->).
  cbn [thread_of_block thread_id emails]. split.
  - unfold block_thread_id. apply strip_idem.
  - intros email key value He Hv.
    apply list_elem_of_In, in_map_iff in He as (part & <- & _).
    apply (parse_single_email_trimmed _ _ _ Hv).
Qed.

Lemma parsed_values_are_trimmed_witness :
  dashboard_thread ∈ parse_email_file dashboard_file
  /\ PyStr.strip (thread_id dashboard_thread) = thread_id dashboard_thread.
Proof.
  assert (H : dashboard_thread ∈ parse_email_file dashboard_file).
  { replace (parse_email_file dashboard_file) with [dashboard_thread]
      by (vm_compute; reflexivity).
    apply list_elem_of_singleton. reflexivity. }
  split; [exact H|].
  apply (proj1 (parsed_values_are_trimmed dashboard_file dashboard_thread H)).
Defined.

Lemma after_subject_none lines :
  Forall (fun line => PyStr.startswith "Subject:" line = false) lines ->
  after_subject lines = [].
Proof.
  induction 1 as [|line rest Hl _ IH]; [reflexivity|].
  cbn [after_subject]. rewrite Hl. exact IH.
Qed.

(** X6.  The body is only read after a subject line: a segment none of
    whose lines starts with 'Subject:' gets the empty body, whatever text it
    holds, while its other header lines are still read. *)
Theorem no_subject_line_empty_body email_text :
  Forall (fun line => PyStr.startswith "Subject:" line = false)
         (nonblank_lines email_text) ->
  _parse_single_email email_text !! "body" = Some ""
  /\ _parse_single_email email_text !! "subject" = None.
Proof.
  intros H. split.
  - rewrite parse_single_email_body, (after_subject_none _ H). reflexivity.
  - rewrite (parse_single_email_header "subject" "Subject:").
    + unfold last_with_prefix.
      assert (Hf : List.filter (PyStr.startswith "Subject:") (nonblank_lines email_text) = []).
      { induction H as [|line rest Hl _ IH]; [reflexivity|].
        cbn [List.filter]. rewrite Hl. exact IH. }
      rewrite Hf. reflexivity.
    + unfold header_prefixes. rewrite !elem_of_cons. auto 6.
Qed.

Lemma no_subject_line_empty_body_witness :
  let segment := "From: ann@example.com" +:+ NL +:+ "We need a dashboard." +:+ NL in
  _parse_single_email segment !! "body" = Some ""
  /\ _parse_single_email segment !! "from" = Some "ann@example.com".
Proof.
  intros segment. split; [|vm_compute; reflexivity].
  apply (proj1 (no_subject_line_empty_body segment
                  ltac:(vm_compute; repeat constructor))).
Defined.

(** X7.  A parsed email has the key 'body' and no key other than 'from',
    'to', 'date', 'subject' and 'body'; each of the four header keys is
    present exactly when some non-blank line starts with its prefix. *)
Theorem parsed_email_keys email_text :
  let e := _parse_single_email email_text in
  is_Some (e !! "body")
  /\ (forall key, is_Some (e !! key) -> In key email_keys)
  /\ (forall key prefix,
        (key, prefix) ∈ header_prefixes ->
        (is_Some (e !! key) <->
         exists line, In line (nonblank_lines email_text)
                      /\ PyStr.startswith prefix line = true)).
Proof.
  intros e. split; [|split].
  - unfold e. rewrite parse_single_email_body. eexists; reflexivity.
  - intros key [v Hv].
    destruct (in_dec string_dec key email_keys) as [Hin|Hout]; [exact Hin|].
    unfold e in Hv. rewrite (parse_single_email_other _ _ Hout) in Hv. discriminate.
  - intros key prefix Hk. unfold e.
    rewrite (parse_single_email_header _ _ _ Hk). unfold last_with_prefix.
    split.
    + intros [v Hv].
      destruct (last _) as [line|] eqn:Hl; [|discriminate].
      exists line. apply last_Some_elem_of, list_elem_of_In, filter_In in Hl.
      exact Hl.
    + intros (line & Hin & Hs).
      assert (Hf : In line (List.filter (PyStr.startswith prefix)
                                        (nonblank_lines email_text)))
        by (apply filter_In; auto).
      destruct (List.filter _ _) as [|x l] eqn:Hfl; [destruct Hf|].
      rewrite last_cons. destruct (last l); eexists; reflexivity.
Qed.

(** ** Substrings *)

Lemma contains_cons sub c s :
  PyStr.contains sub (String c s)
  = PyStr.startswith sub (String c s) || PyStr.contains sub s.
Proof. reflexivity. Qed.

Lemma startswith_empty s : PyStr.startswith "" s = true.
Proof. destruct s; reflexivity. Qed.

Lemma contains_empty s : PyStr.contains "" s = true.
Proof.
  destruct s; [reflexivity|]. rewrite contains_cons, startswith_empty. reflexivity.
Qed.

Lemma startswith_append p s t :
  PyStr.startswith p s = true -> PyStr.startswith p (s +:+ t) = true.
Proof.
  revert s. induction p as [|a p IH]; intros s H; [apply startswith_empty|].
  destruct s as [|b s]; [discriminate|].
  pose proof (startswith_head _ _ _ _ H) as ->.
  rewrite append_cons.
  unfold PyStr.startswith in *. fold PyStr.startswith in *.
  rewrite Ascii.eqb_refl in *. apply IH, H.
Qed.

Lemma contains_append_l sub a b :
  PyStr.contains sub a = true -> PyStr.contains sub (a +:+ b) = true.
Proof.
  induction a as [|c a IH]; intros H.
  - destruct sub; [apply contains_empty|discriminate].
  - rewrite append_cons, contains_cons. rewrite contains_cons in H.
    apply orb_true_iff in H as [H|H].
    + rewrite <- append_cons, (startswith_append _ _ _ H). reflexivity.
    + rewrite (IH H). apply orb_true_r.
Qed.

Lemma contains_append_r sub a b :
  PyStr.contains sub b = true -> PyStr.contains sub (a +:+ b) = true.
Proof.
  intros H. induction a as [|c a IH]; [exact H|].
  rewrite append_cons, contains_cons, IH. apply orb_true_r.
Qed.


Lemma lower_append a b : PyStr.lower (a +:+ b) = PyStr.lower a +:+ PyStr.lower b.
Proof.
  induction a as [|c a IH]; [reflexivity|].
  rewrite append_cons. cbn [PyStr.lower]. rewrite IH, append_cons. reflexivity.
Qed.

Lemma any_keyword_in_intro keywords keyword text :
  In keyword keywords -> PyStr.contains keyword text = true ->
  any_keyword_in keywords text = true.
Proof.
  intros Hin Hc. unfold any_keyword_in. apply existsb_exists. eauto.
Qed.

(** ** The keyword heuristics *)

Lemma keyword_scan_existsb emails :
  keyword_scan emails =
  existsb (fun email => any_keyword_in requirement_keywords (subject_body_text email))
          emails.
Proof.
  induction emails as [|email rest IH]; [reflexivity|].
  cbn [keyword_scan existsb]. rewrite IH.
  destruct (any_keyword_in _ _); reflexivity.
Qed.

(** X8.  A vocabulary keyword occurring anywhere in the lower-cased subject
    or in the lower-cased body of any email of a thread makes the keyword
    heuristic answer 'requirement', whatever the other emails hold and
    whatever the letter case of the text; an agent in keyword mode then
    labels the thread 'requirement'. *)
Theorem keyword_anywhere_is_requirement thread email keyword :
  email ∈ emails thread ->
  In keyword requirement_keywords ->
  PyStr.contains keyword (PyStr.lower (dict_get "subject" "" email)) = true
  \/ PyStr.contains keyword (PyStr.lower (dict_get "body" "" email)) = true ->
  is_requirement_thread_keyword thread = true
  /\ forall ag w, use_ai ag = false ->
                  fst (classify_thread ag thread w) = "requirement".
Proof.
  intros He Hk Hc.
  assert (Hr : is_requirement_thread_keyword thread = true).
  { unfold is_requirement_thread_keyword. rewrite keyword_scan_existsb.
    apply existsb_exists. exists email. split; [apply list_elem_of_In, He|].
    apply (any_keyword_in_intro _ keyword); [exact Hk|].
    unfold subject_body_text. rewrite !lower_append.
    destruct Hc as [Hc|Hc].
    - apply contains_append_l, Hc.
    - apply contains_append_r, contains_append_r, Hc. }
  split; [exact Hr|]. intros ag w Hu.
  rewrite (classify_thread_keyword_mode _ _ _ Hu). unfold keyword_label.
  rewrite Hr. reflexivity.
Qed.

Lemma keyword_anywhere_is_requirement_witness :
  let reply := <["body" := "The Deployment Timeline slipped again."]>
                 (<["subject" := "Re: status"]> (∅ : Email)) in
  let thread := mkThread "THREAD-7" [{["body" := "Happy holidays everyone!"]}; reply] in
  is_requirement_thread_keyword thread = true.
Proof.
  intros reply thread.
  apply (proj1 (keyword_anywhere_is_requirement thread reply "deployment"
                  ltac:(apply elem_of_cons; right; apply elem_of_cons; left; reflexivity)
                  ltac:(vm_compute; tauto)
                  ltac:(right; vm_compute; reflexivity))).
Defined.

(** X9.  The keyword heuristic is an OR over the emails of the thread: a
    thread made of two runs of emails is a requirement thread exactly when
    one of the runs is, so further emails never turn a requirement thread
    into a general one.  A thread without emails is 'general', and an email
    with neither subject nor body matches no keyword. *)
Theorem keyword_heuristic_is_disjunctive :
  (forall id emails1 emails2,
     is_requirement_thread_keyword (mkThread id (emails1 ++ emails2))
     = is_requirement_thread_keyword (mkThread id emails1)
       || is_requirement_thread_keyword (mkThread id emails2))
  /\ (forall id, keyword_label (mkThread id []) = "general")
  /\ (forall id (email : Email),
        email !! "subject" = None -> email !! "body" = None ->
        keyword_label (mkThread id [email]) = "general").
Proof.
  split; [|split].
  - intros id emails1 emails2. unfold is_requirement_thread_keyword. cbn [emails].
    rewrite !keyword_scan_existsb. apply existsb_app.
  - reflexivity.
  - intros id email Hs Hb.
    unfold keyword_label, is_requirement_thread_keyword. cbn [emails keyword_scan].
    unfold subject_body_text, dict_get. rewrite Hs, Hb. reflexivity.
Qed.

Lemma extract_basic_eq emails acc :
  foldl extract_basic_step acc emails =
  (acc ++ map keyword_item (List.filter states_requirement emails))%list.
Proof.
  revert acc. induction emails as [|email rest IH]; intros acc.
  - cbn. rewrite app_nil_r. reflexivity.
  - cbn [foldl List.filter]. rewrite IH. unfold extract_basic_step, states_requirement.
    cbv zeta. destruct (any_keyword_in _ _); [|reflexivity].
    cbn [map]. rewrite <- app_assoc. reflexivity.
Qed.

(** X10.  The keyword extractor returns, in the order of the emails, one
    item for each email whose lower-cased body contains 'need', 'require',
    'should' or 'must': the item carries the body as it is, the sender and
    the date, and is tagged 'keyword'.  So there are never more items than
    emails, and an email without a body gives no item. *)
Theorem extract_basic_by_emails thread :
  _extract_requirements_basic thread
  = map keyword_item (List.filter states_requirement (emails thread))
  /\ List.length (_extract_requirements_basic thread) <= List.length (emails thread)
  /\ Forall (fun item => extraction_method item = "keyword")
            (_extract_requirements_basic thread)
  /\ (forall email : Email, email !! "body" = None -> states_requirement email = false).
Proof.
  assert (He : _extract_requirements_basic thread
               = map keyword_item (List.filter states_requirement (emails thread))).
  { unfold _extract_requirements_basic. apply extract_basic_eq. }
  split; [exact He|]. split; [|split].
  - rewrite He, length_map. apply filter_length_le.
  - rewrite He. apply Forall_forall. intros item Hi.
    apply list_elem_of_In, in_map_iff in Hi as (email & <- & _). reflexivity.
  - intros email Hb. unfold states_requirement, dict_get. rewrite Hb. reflexivity.
Qed.

(** ** What is sent to the collaborator *)





(** ** Configuration *)

(** X12.  [Config.validate] succeeds exactly when one of the two API keys
    is set and, if the Azure key is set, the Azure endpoint is set too
    (empty values count as unset).  Otherwise it raises, and the message
    names exactly one missing item: the two checks cannot fail together. *)
Theorem config_validate_cases cfg :
  let openai := AI.opt_truthy (AI.OPENAI_API_KEY cfg) in
  let azure := AI.opt_truthy (AI.AZURE_OPENAI_API_KEY cfg) in
  let endpoint := AI.opt_truthy (AI.AZURE_OPENAI_ENDPOINT cfg) in
  (Config_validate cfg = Ok true
   /\ (openai = true \/ azure = true) /\ (azure = true -> endpoint = true))
  \/ (Config_validate cfg
      = Raise "Missing required configuration: OPENAI_API_KEY or AZURE_OPENAI_API_KEY"
      /\ openai = false /\ azure = false)
  \/ (Config_validate cfg
      = Raise "Missing required configuration: AZURE_OPENAI_ENDPOINT"
      /\ azure = true /\ endpoint = false).
Proof.
  intros openai azure endpoint. unfold Config_validate.
  fold openai. fold azure. fold endpoint.
  destruct openai, azure, endpoint; cbn; auto 8.
  all: left; repeat split; auto; discriminate.
Qed.

(** X13.  When [Config.validate] succeeds, the constructor chosen by
    [AIEmailProcessor.__init__] is given a key that is set: the Azure client
    (with a set endpoint, and the deployment as model) when the Azure key is
    set, the OpenAI client (with [OPENAI_MODEL] as model) otherwise; the
    processor is built exactly when that constructor does not raise. *)
Theorem validated_config_selects_client sdk cfg :
  Config_validate cfg = Ok true ->
  (AI.opt_truthy (AI.AZURE_OPENAI_API_KEY cfg) = true
   /\ AI.opt_truthy (AI.AZURE_OPENAI_ENDPOINT cfg) = true
   /\ AI.init sdk cfg =
      match AI.AzureOpenAI sdk (AI.AZURE_OPENAI_API_KEY cfg)
              (AI.AZURE_OPENAI_API_VERSION cfg) (AI.AZURE_OPENAI_ENDPOINT cfg) with
      | Ok c => Ok (AI.mkAIEmailProcessor c (AI.AZURE_OPENAI_DEPLOYMENT cfg) true)
      | Raise e => Raise e
      end)
  \/ (AI.opt_truthy (AI.AZURE_OPENAI_API_KEY cfg) = false
      /\ AI.opt_truthy (AI.OPENAI_API_KEY cfg) = true
      /\ AI.init sdk cfg =
         match AI.OpenAI sdk (AI.OPENAI_API_KEY cfg) with
         | Ok c => Ok (AI.mkAIEmailProcessor c (Some (AI.OPENAI_MODEL cfg)) false)
         | Raise e => Raise e
         end).
Proof.
  intros Hv. unfold AI.init. unfold Config_validate in Hv.
  destruct (AI.opt_truthy (AI.AZURE_OPENAI_API_KEY cfg)) eqn:Ha;
    destruct (AI.opt_truthy (AI.AZURE_OPENAI_ENDPOINT cfg)) eqn:He;
    destruct (AI.opt_truthy (AI.OPENAI_API_KEY cfg)) eqn:Ho;
    cbn in Hv; try discriminate Hv.
  all: first [left; repeat split; reflexivity | right; repeat split; reflexivity].
Qed.

Lemma validated_config_selects_client_witness :
  Config_validate test_config = Ok true
  /\ AI.init (sdk_key_required failing_client) test_config
     = Ok (AI.mkAIEmailProcessor failing_client (Some "gpt-4") false).
Proof.
  assert (Hv : Config_validate test_config = Ok true) by reflexivity.
  split; [exact Hv|].
  destruct (validated_config_selects_client (sdk_key_required failing_client)
              test_config Hv) as [(Ha & _)|(_ & _ & Hi)].
  - discriminate Ha.
  - exact Hi.
Defined.

(** ** Labels, items and calls *)

(** X14.  Whatever the state of the agent and whatever the collaborator
    does, [classify_thread] returns 'requirement' or 'general' and nothing
    else; it leaves the collection and the clock alone, makes no chat call
    in keyword mode and exactly one when it has a processor in AI mode. *)
Theorem classify_thread_label_is_binary ag thread w :
  let r := classify_thread ag thread w in
  (fst r = "requirement" \/ fst r = "general")
  /\ collection (snd r) = collection w
  /\ clock_reads (snd r) = clock_reads w
  /\ ai_calls (snd r) =
     (if use_ai ag then match ai_processor ag with Some _ => 1 | None => 0 end else 0)
     + ai_calls w.
Proof.
  assert (Hk : keyword_label thread = "requirement" \/ keyword_label thread = "general").
  { unfold keyword_label. destruct (is_requirement_thread_keyword thread); auto. }
  cbv zeta. destruct (use_ai ag) eqn:Hu.
  - destruct (ai_processor ag) as [p|] eqn:Hp.
    + rewrite (classify_thread_ai_mode _ _ _ _ Hu Hp). cbn.
      repeat split; try reflexivity.
      unfold ai_label. destruct (chat_create _ _ _); [|auto].
      apply normalize_label_cases.
    + rewrite (classify_thread_handler _ _ _ Hu Hp). cbn. auto.
  - rewrite (classify_thread_keyword_mode _ _ _ Hu). cbn. auto.
Qed.

(** X15.  In AI mode with a processor, [extract_requirements] returns at
    most one item, whatever the number of emails: none when the chat call
    raises, and otherwise one item tagged 'AI' that carries the
    collaborator's text trimmed and the model name of the processor.  The
    keyword extractor is not consulted. *)
Theorem ai_extraction_gives_at_most_one_item ag p thread w :
  use_ai ag = true -> ai_processor ag = Some p ->
  let items := fst (extract_requirements ag thread w) in
  List.length items <= 1
  /\ (forall item, In item items ->
        exists text, item = AIItem text (AI.model p)
                     /\ PyStr.strip text = text
                     /\ extraction_method item = "AI")
  /\ (forall msg,
        chat_create (AI.client p) (ai_calls w) (AI.extract_request p thread) = Raise msg ->
        items = [])
  /\ (forall content,
        chat_create (AI.client p) (ai_calls w) (AI.extract_request p thread) = Ok content ->
        items = [AIItem (PyStr.strip content) (AI.model p)]).
Proof.
  intros Hu Hp. cbv zeta. rewrite (extract_requirements_ai_mode _ _ _ _ Hu Hp).
  cbn [fst]. unfold ai_items.
  destruct (chat_create _ _ _) as [content|msg]; cbn [List.length In].
  - split; [lia|]. split; [|split].
    + intros item [<-|[]]. exists (PyStr.strip content).
      split; [reflexivity|]. split; [apply strip_idem|reflexivity].
    + intros m H. discriminate H.
    + intros c H. injection H as <-. reflexivity.
  - split; [lia|]. split; [|split].
    + intros item [].
    + reflexivity.
    + intros c H. discriminate H.
Qed.

Lemma ai_extraction_gives_at_most_one_item_witness :
  let ag := RequirementAgent_init (sdk_with (constant_client " 1. Dashboard (high) "))
                                  test_config true in
  fst (extract_requirements ag dashboard_thread empty_world)
  = [AIItem "1. Dashboard (high)" (Some "gpt-4")].
Proof.
  intros ag.
  apply (proj2 (proj2 (proj2 (ai_extraction_gives_at_most_one_item ag
                  (AI.mkAIEmailProcessor (constant_client " 1. Dashboard (high) ")
                                         (Some "gpt-4") false)
                  dashboard_thread empty_world eq_refl eq_refl)))
               " 1. Dashboard (high) " eq_refl).
Defined.

(** ** The write, looked at from the collection *)

(** X16.  [update_one] with [upsert=True] reports an insert exactly when no
    document has the key: then the document is appended and the collection
    grows by one; otherwise the collection keeps its length and its ids,
    and the first document with the key is the one replaced. *)
Theorem update_one_reports_insert d docs :
  let key := doc_thread_id d in
  let r := update_one key d docs in
  snd r = negb (existsb (fun x => String.eqb (doc_thread_id x) key) docs)
  /\ (snd r = true -> fst r = (docs ++ [d])%list)
  /\ (snd r = false ->
      List.length (fst r) = List.length docs
      /\ map doc_thread_id (fst r) = map doc_thread_id docs)
  /\ find_document key (fst r) = Some d.
Proof.
  cbv zeta. induction docs as [|x docs IH].
  - cbn. rewrite String.eqb_refl. repeat split; try reflexivity; discriminate.
  - cbn [update_one existsb find_document List.find].
    destruct (String.eqb (doc_thread_id x) (doc_thread_id d)) eqn:He.
    + cbn. unfold find_document. cbn. rewrite String.eqb_refl.
      apply String.eqb_eq in He. rewrite He.
      repeat split; try reflexivity; discriminate.
    + destruct IH as (Hflag & Hins & Hupd & Hfind).
      destruct (update_one (doc_thread_id d) d docs) as [rest upserted].
      cbn [fst snd] in *. split; [exact Hflag|]. split; [|split].
      * intros Hu. rewrite (Hins Hu). reflexivity.
      * intros Hu. destruct (Hupd Hu) as [Hl Hi]. cbn. rewrite Hl, Hi. split; reflexivity.
      * unfold find_document in *. cbn [List.find]. rewrite He. exact Hfind.
Qed.

Lemma find_document_upsert d docs :
  find_document (doc_thread_id d) (upsert d docs) = Some d.
Proof.
  induction docs as [|x docs IH].
  - rewrite upsert_nil. unfold find_document. cbn. rewrite String.eqb_refl. reflexivity.
  - rewrite upsert_cons. unfold find_document in *.
    destruct (String.eqb (doc_thread_id x) (doc_thread_id d)) eqn:He; cbn [List.find].
    + rewrite String.eqb_refl. reflexivity.
    + rewrite He. exact IH.
Qed.

Lemma find_document_upsert_ne key d docs :
  key <> doc_thread_id d ->
  find_document key (upsert d docs) = find_document key docs.
Proof.
  intros Hne. induction docs as [|x docs IH].
  - rewrite upsert_nil. unfold find_document. cbn.
    destruct (String.eqb_spec (doc_thread_id d) key); [congruence|reflexivity].
  - rewrite upsert_cons.
    destruct (String.eqb_spec (doc_thread_id x) (doc_thread_id d)) as [He|Hd].
    + unfold find_document. cbn [List.find].
      destruct (String.eqb_spec (doc_thread_id d) key); [congruence|].
      destruct (String.eqb_spec (doc_thread_id x) key); [congruence|reflexivity].
    + unfold find_document in *. cbn [List.find].
      destruct (String.eqb (doc_thread_id x) key); [reflexivity|exact IH].
Qed.

Lemma other_documents_upsert d docs :
  other_documents (doc_thread_id d) (upsert d docs)
  = other_documents (doc_thread_id d) docs.
Proof.
  induction docs as [|x docs IH].
  - rewrite upsert_nil. unfold other_documents. cbn. rewrite String.eqb_refl. reflexivity.
  - rewrite upsert_cons. unfold other_documents in *. cbn [List.filter].
    destruct (String.eqb (doc_thread_id x) (doc_thread_id d)) eqn:He; cbn [negb].
    + cbn [List.filter]. rewrite String.eqb_refl. reflexivity.
    + cbn [List.filter]. rewrite He. cbn [negb]. rewrite IH. reflexivity.
Qed.

(** X17.  After [store_requirement_thread] has returned true, looking the
    thread id up in the collection gives exactly the document built in this
    call: the thread's id and emails, the requirements that
    [extract_requirements] returned in this call (asked after the
    classification), and as [created_at] the clock reading of this call.
    The documents of all other thread ids are exactly what they were before
    the call. *)
Theorem stored_thread_can_be_found now ag thread w :
  fst (store_requirement_thread now ag thread w) = true ->
  let docs := collection (snd (store_requirement_thread now ag thread w)) in
  let requirements :=
    fst (extract_requirements ag thread (snd (classify_thread ag thread w))) in
  find_document (thread_id thread) docs
  = Some (make_document ag thread requirements (now (clock_reads w)))
  /\ other_documents (thread_id thread) docs
     = other_documents (thread_id thread) (collection w)
  /\ (forall key, key <> thread_id thread ->
        find_document key docs = find_document key (collection w)).
Proof.
  cbv zeta. rewrite store_requirement_thread_eq.
  pose proof (classify_thread_frame ag thread w) as [Hc Hk].
  destruct (classify_thread ag thread w) as [category w1]. cbn [fst snd] in *.
  destruct (negb (String.eqb category "requirement")); [discriminate|].
  pose proof (extract_requirements_frame ag thread w1) as [Hc2 Hk2].
  destruct (extract_requirements ag thread w1) as [items w2].
  cbn [fst snd collection] in *. intros _.
  rewrite Hc2, Hc, Hk2, Hk.
  set (d := make_document ag thread items (now (clock_reads w))).
  split; [|split].
  - apply (find_document_upsert d).
  - apply (other_documents_upsert d).
  - intros key Hkey. apply (find_document_upsert_ne key d). exact Hkey.
Qed.

Lemma stored_thread_can_be_found_witness :
  fst (store_requirement_thread (fun n => Z.of_nat (n + 7)) keyword_agent
         dashboard_thread empty_world) = true
  /\ find_document "THREAD-1"
       (collection (snd (store_requirement_thread (fun n => Z.of_nat (n + 7))
                           keyword_agent dashboard_thread empty_world)))
     = Some (make_document keyword_agent dashboard_thread
               [KeywordItem "We need a dashboard for tracking."
                            (Some "pm@client.example") (Some "2024-03-01")]
               7%Z).
Proof.
  assert (Hs : fst (store_requirement_thread (fun n => Z.of_nat (n + 7)) keyword_agent
                      dashboard_thread empty_world) = true) by (vm_compute; reflexivity).
  split; [exact Hs|].
  apply (proj1 (stored_thread_can_be_found (fun n => Z.of_nat (n + 7)) keyword_agent
                  dashboard_thread empty_world Hs)).
Defined.

(** ** What a run does to the world *)

Lemma classify_thread_calls ag thread w :
  ai_calls (snd (classify_thread ag thread w)) = calls_per_query ag + ai_calls w.
Proof.
  unfold calls_per_query. destruct (use_ai ag) eqn:Hu.
  - destruct (ai_processor ag) as [p|] eqn:Hp.
    + rewrite (classify_thread_ai_mode _ _ _ _ Hu Hp). reflexivity.
    + rewrite (classify_thread_handler _ _ _ Hu Hp). reflexivity.
  - rewrite (classify_thread_keyword_mode _ _ _ Hu). reflexivity.
Qed.

Lemma extract_requirements_calls ag thread w :
  ai_calls (snd (extract_requirements ag thread w)) = calls_per_query ag + ai_calls w.
Proof.
  unfold calls_per_query. destruct (use_ai ag) eqn:Hu.
  - destruct (ai_processor ag) as [p|] eqn:Hp.
    + rewrite (extract_requirements_ai_mode _ _ _ _ Hu Hp). reflexivity.
    + rewrite (extract_requirements_handler _ _ _ Hu Hp). reflexivity.
  - rewrite (extract_requirements_keyword_mode _ _ _ Hu). reflexivity.
Qed.

(** One call of [store_requirement_thread], resource by resource. *)
Lemma store_requirement_thread_effect now ag thread w :
  let r := store_requirement_thread now ag thread w in
  let n := if fst r then 1 else 0 in
  clock_reads (snd r) = clock_reads w + n
  /\ ai_calls (snd r) = ai_calls w + calls_per_query ag * (1 + n)
  /\ (fst r = false -> collection (snd r) = collection w)
  /\ (fst r = true ->
      exists w1,
        collection (snd r) =
        upsert (make_document ag thread (fst (extract_requirements ag thread w1))
                              (now (clock_reads w)))
               (collection w)).
Proof.
  cbv zeta. rewrite store_requirement_thread_eq.
  pose proof (classify_thread_frame ag thread w) as [Hc Hk].
  pose proof (classify_thread_calls ag thread w) as Ha.
  destruct (classify_thread ag thread w) as [category w1]. cbn [fst snd] in *.
  destruct (negb (String.eqb category "requirement")).
  - cbn [fst snd]. split; [lia|]. split; [lia|].
    split; [intros _; assumption|intros H; discriminate H].
  - pose proof (extract_requirements_frame ag thread w1) as [Hc2 Hk2].
    pose proof (extract_requirements_calls ag thread w1) as Ha2.
    destruct (extract_requirements ag thread w1) as [items w2] eqn:He.
    cbn [fst snd collection ai_calls clock_reads] in *.
    split; [lia|]. split; [lia|]. split; [intros H; discriminate H|].
    intros _. exists w1. rewrite He. cbn [fst]. rewrite Hc2, Hc, Hk2, Hk. reflexivity.
Qed.

(** The loop of a run, resource by resource: [stored] threads were stored
    and [new_ids] are the ids the collection did not hold before. *)
Lemma process_threads_effect now ag threads count w :
  let r := process_threads now ag threads count w in
  exists stored new_ids,
    fst r = count + stored
    /\ stored <= List.length threads
    /\ clock_reads (snd r) = clock_reads w + stored
    /\ ai_calls (snd r)
       = ai_calls w + calls_per_query ag * (List.length threads + stored)
    /\ map doc_thread_id (collection (snd r))
       = (map doc_thread_id (collection w) ++ new_ids)%list
    /\ List.length new_ids <= stored
    /\ (forall id, In id new_ids -> ~ In id (map doc_thread_id (collection w))).
Proof.
  cbv zeta. revert count w. induction threads as [|thread rest IH]; intros count w.
  - exists 0, []. cbn. rewrite app_nil_r. repeat split; try lia; try tauto.
  - cbn [process_threads]. unfold bind.
    pose proof (store_requirement_thread_effect now ag thread w) as Hs.
    destruct (store_requirement_thread now ag thread w) as [stored1 w1].
    cbv zeta in Hs. cbn [fst snd] in Hs. destruct Hs as (Hk & Ha & Hskip & Hwrite).
    destruct (IH (if stored1 then count + 1 else count) w1)
      as (stored & new_ids & Hf & Hle & Hk' & Ha' & Hids & Hn & Hfresh).
    destruct stored1.
    + destruct (Hwrite eq_refl) as (w' & Hcol).
      set (d := make_document ag thread (fst (extract_requirements ag thread w'))
                              (now (clock_reads w))) in Hcol.
      pose proof (upsert_ids d (collection w)) as Hu. rewrite <- Hcol in Hu.
      destruct (bool_decide (doc_thread_id d ∈ map doc_thread_id (collection w))) eqn:Hd.
      * exists (S stored), new_ids. rewrite Hu in Hids, Hfresh.
        cbn [List.length]. repeat split; try lia; try assumption.
      * exists (S stored), (doc_thread_id d :: new_ids). rewrite Hu in Hids, Hfresh.
        apply bool_decide_eq_false in Hd.
        cbn [List.length]. repeat split; try lia.
        -- rewrite Hids, <- app_assoc. reflexivity.
        -- intros id [<-|Hin] Hold.
           ++ apply Hd, list_elem_of_In, Hold.
           ++ apply (Hfresh id Hin), in_or_app. left; exact Hold.
    + rewrite (Hskip eq_refl) in Hids, Hfresh.
      exists stored, new_ids. cbn [List.length].
      repeat split; try lia; try assumption.
Qed.

(** Every document in the collection after the loop was there before, or was
    made for one of the threads from what [extract_requirements] returned. *)
Lemma process_threads_written now ag threads count w d :
  d ∈ collection (snd (process_threads now ag threads count w)) ->
  d ∈ collection w
  \/ exists thread w' created_at,
       thread ∈ threads
       /\ d = make_document ag thread (fst (extract_requirements ag thread w'))
                            created_at.
Proof.
  revert count w. induction threads as [|thread rest IH]; intros count w.
  - left; assumption.
  - cbn [process_threads]. unfold bind.
    pose proof (store_requirement_thread_effect now ag thread w) as Hs.
    destruct (store_requirement_thread now ag thread w) as [stored1 w1].
    cbv zeta in Hs. cbn [fst snd] in Hs. destruct Hs as (_ & _ & Hskip & Hwrite).
    intros Hd. apply IH in Hd as [Hd|(t & w' & ts & Ht & Hd)].
    + destruct stored1.
      * destruct (Hwrite eq_refl) as (w' & Hcol). rewrite Hcol in Hd.
        apply elem_of_upsert in Hd as [Hd|Hd]; [left; exact Hd|].
        right. exists thread, w', (now (clock_reads w)).
        split; [apply elem_of_cons; left; reflexivity|exact Hd].
      * rewrite (Hskip eq_refl) in Hd. left; exact Hd.
    + right. exists t, w', ts. split; [apply elem_of_cons; right; exact Ht|exact Hd].
Qed.

(** X18.  A run never deletes and never reorders: the thread ids held by
    the collection before the run are a prefix of those held after it.  The
    ids added were not held before, and there are at most as many of them as
    threads reported stored; the number of documents grows by exactly that
    many. *)
Theorem run_never_deletes now ag content w :
  let r := process_all_requirements now ag content w in
  exists new_ids,
    stored_ids (snd r) = (stored_ids w ++ new_ids)%list
    /\ List.length new_ids <= threads_stored (fst r)
    /\ count_documents (snd r) = count_documents w + List.length new_ids
    /\ (forall id, In id new_ids -> ~ In id (stored_ids w)).
Proof.
  cbv zeta. rewrite process_all_snd, process_all_fst. cbv zeta. cbn [threads_stored].
  destruct (process_threads_effect now ag (parse_email_file content) 0 w)
    as (stored & new_ids & Hf & _ & _ & _ & Hids & Hn & Hfresh).
  exists new_ids. unfold stored_ids, count_documents.
  split; [exact Hids|]. split; [lia|]. split; [|exact Hfresh].
  rewrite <- (length_map doc_thread_id (collection (snd _))), Hids.
  rewrite length_app, length_map. reflexivity.
Qed.

Lemma keyword_label_eqb thread :
  String.eqb (keyword_label thread) "requirement" = is_requirement_thread_keyword thread.
Proof. unfold keyword_label. destruct (is_requirement_thread_keyword thread); reflexivity. Qed.

(** X19.  The three counts of the summary add up: the threads processed are
    the threads the parser returned, and stored plus skipped is processed.
    When the agent's results are repeatable the stored count is the number
    of threads labelled 'requirement'; in keyword mode that is the number of
    threads the keyword heuristic accepts. *)
Theorem summary_counts_add_up now ag content w :
  let s := fst (process_all_requirements now ag content w) in
  let threads := parse_email_file content in
  threads_processed s = List.length threads
  /\ threads_stored s + threads_skipped s = threads_processed s
  /\ (repeatable ag ->
      threads_stored s =
      List.length (List.filter (fun thread => String.eqb (label_of ag thread) "requirement")
                               threads))
  /\ (use_ai ag = false ->
      threads_stored s = List.length (List.filter is_requirement_thread_keyword threads)).
Proof.
  cbv zeta. rewrite process_all_fst. cbv zeta.
  cbn [threads_processed threads_stored threads_skipped].
  destruct (process_threads_effect now ag (parse_email_file content) 0 w)
    as (stored & new_ids & Hf & Hle & _).
  assert (Hrep : repeatable ag ->
                 fst (process_threads now ag (parse_email_file content) 0 w)
                 = List.length (List.filter
                                  (fun thread => String.eqb (label_of ag thread) "requirement")
                                  (parse_email_file content))).
  { intros Hr.
    destruct (process_threads_run now ag (parse_email_file content) 0 w Hr) as [_ Hn].
    rewrite Hn. unfold written_documents. rewrite length_map. reflexivity. }
  split; [reflexivity|]. split; [lia|]. split; [exact Hrep|].
  intros Hu. rewrite (Hrep (or_introl Hu)). f_equal.
  apply filter_ext. intros thread. unfold label_of.
  rewrite (classify_thread_keyword_mode _ _ _ Hu). apply keyword_label_eqb.
Qed.

(** X20.  What a run costs: the clock is read once for each thread stored
    and never otherwise; in AI mode with a processor the collaborator is
    called once for every thread and once more for every thread stored, in
    keyword mode it is never called; so a run never makes more than two chat
    calls per thread. *)
Theorem run_resource_use now ag content w :
  let r := process_all_requirements now ag content w in
  clock_reads (snd r) = clock_reads w + threads_stored (fst r)
  /\ ai_calls (snd r)
     = ai_calls w
       + calls_per_query ag * (threads_processed (fst r) + threads_stored (fst r))
  /\ ai_calls (snd r) <= ai_calls w + 2 * threads_processed (fst r)
  /\ (use_ai ag = false -> ai_calls (snd r) = ai_calls w).
Proof.
  cbv zeta. rewrite process_all_snd, process_all_fst. cbv zeta.
  cbn [threads_processed threads_stored].
  destruct (process_threads_effect now ag (parse_email_file content) 0 w)
    as (stored & new_ids & Hf & Hle & Hk & Ha & _).
  rewrite Hf, Hk, Ha. cbn [Nat.add].
  assert (Hq : calls_per_query ag <= 1).
  { unfold calls_per_query. destruct (use_ai ag), (ai_processor ag); lia. }
  split; [reflexivity|]. split; [reflexivity|]. split; [nia|].
  intros Hu. unfold calls_per_query. rewrite Hu. lia.
Qed.

Lemma parsed_thread_nonempty content thread :
  thread ∈ parse_email_file content -> emails thread <> [].
Proof.
  unfold parse_email_file. cbv zeta. intros H.
  apply collect_threads_from_blocks in H as [H|(Hne & _)]; [|exact Hne].
  apply elem_of_nil in H. destruct H.
Qed.

(** X21.  Every document a run leaves in the collection was there before or
    is well formed: its category is 'requirement', it holds the emails of one
    of the parsed threads under that thread's id, there is at least one
    email, [email_count] is the number of emails, client, subject and first
    date are read from the first email and the last date from the last one,
    and the classification method is the mode of the agent. *)
Theorem written_documents_are_well_formed now ag content w d :
  d ∈ collection (snd (process_all_requirements now ag content w)) ->
  d ∈ collection w
  \/ (well_formed_document d
      /\ doc_emails d <> []
      /\ 1 <= doc_email_count d
      /\ doc_classification_method d = mode_label ag
      /\ exists thread,
           thread ∈ parse_email_file content
           /\ doc_thread_id d = thread_id thread
           /\ doc_emails d = emails thread).
Proof.
  rewrite process_all_snd. intros Hd.
  apply process_threads_written in Hd as [Hd|(thread & w' & ts & Ht & ->)];
    [left; exact Hd|right].
  pose proof (parsed_thread_nonempty _ _ Ht) as Hne.
  cbn [make_document doc_emails doc_email_count doc_classification_method doc_thread_id].
  split; [|split; [exact Hne|split; [|split; [reflexivity|]]]].
  - unfold well_formed_document. cbn. repeat split.
  - destruct (emails thread); [contradiction|cbn; lia].
  - exists thread. repeat split. exact Ht.
Qed.

Lemma written_documents_are_well_formed_witness :
  let run := process_all_requirements Z.of_nat keyword_agent dashboard_file empty_world in
  exists d, collection (snd run) = [d]
            /\ well_formed_document d /\ doc_email_count d = 1.
Proof.
  intros run.
  exists (make_document keyword_agent dashboard_thread
            (_extract_requirements_basic dashboard_thread) 0%Z).
  assert (Hc : collection (snd run)
               = [make_document keyword_agent dashboard_thread
                    (_extract_requirements_basic dashboard_thread) 0%Z])
    by (vm_compute; reflexivity).
  split; [exact Hc|].
  destruct (written_documents_are_well_formed Z.of_nat keyword_agent dashboard_file
              empty_world
              (make_document keyword_agent dashboard_thread
                 (_extract_requirements_basic dashboard_thread) 0%Z))
    as [Hold|(Hwf & _)].
  - fold run. rewrite Hc. apply list_elem_of_singleton. reflexivity.
  - apply elem_of_nil in Hold. destruct Hold.
  - split; [exact Hwf|reflexivity].
Defined.

Lemma agent_init_processor sdk cfg flag :
  let ag := RequirementAgent_init sdk cfg flag in
  use_ai ag = true -> exists p, ai_processor ag = Some p.
Proof.
  cbv zeta. unfold RequirementAgent_init. destruct flag; [|discriminate].
  destruct (AI.init sdk cfg) as [p|msg]; [|discriminate].
  intros _. exists p. reflexivity.
Qed.

(** X22.  For an agent built by [__init__], the requirement items of every
    document a run writes carry the extraction method that the document
    names as its classification method: 'AI' items under 'AI', 'keyword'
    items under 'keyword'; the two are never mixed in one document. *)
Theorem extraction_method_matches_document sdk cfg flag now content w d :
  let ag := RequirementAgent_init sdk cfg flag in
  d ∈ collection (snd (process_all_requirements now ag content w)) ->
  d ∈ collection w
  \/ Forall (fun item => extraction_method item = doc_classification_method d)
            (doc_requirements d).
Proof.
  intros ag. rewrite process_all_snd. intros Hd.
  apply process_threads_written in Hd as [Hd|(thread & w' & ts & _ & ->)];
    [left; exact Hd|right].
  cbn [make_document doc_requirements doc_classification_method].
  destruct (use_ai ag) eqn:Hu.
  - destruct (agent_init_processor sdk cfg flag Hu) as (p & Hp). fold ag in Hp.
    rewrite (extract_requirements_ai_mode _ _ _ _ Hu Hp). cbn [fst].
    unfold ai_items. destruct (chat_create _ _ _); repeat constructor.
  - rewrite (extract_requirements_keyword_mode _ _ _ Hu). cbn [fst].
    unfold _extract_requirements_basic. rewrite extract_basic_eq. cbn [app].
    apply Forall_forall. intros item Hi.
    apply list_elem_of_In, in_map_iff in Hi as (email & <- & _). reflexivity.
Qed.

Lemma extraction_method_matches_document_witness :
  let ag := RequirementAgent_init (sdk_with (constant_client "requirement"))
                                  test_config true in
  let run := process_all_requirements Z.of_nat ag dashboard_file empty_world in
  exists d, collection (snd run) = [d]
            /\ doc_classification_method d = "AI"
            /\ Forall (fun item => extraction_method item = doc_classification_method d)
                      (doc_requirements d).
Proof.
  intros ag run.
  set (d := make_document ag dashboard_thread [AIItem "requirement" (Some "gpt-4")] 0%Z).
  assert (Hc : collection (snd run) = [d]) by (vm_compute; reflexivity).
  exists d. split; [exact Hc|]. split; [reflexivity|].
  destruct (extraction_method_matches_document
              (sdk_with (constant_client "requirement")) test_config true
              Z.of_nat dashboard_file empty_world d) as [Hold|Hf].
  - fold ag. fold run. rewrite Hc. apply list_elem_of_singleton. reflexivity.
  - apply elem_of_nil in Hold. destruct Hold.
  - exact Hf.
Defined.

(** ** How writes compose *)

Lemma upsert_overwrite d1 d2 docs :
  doc_thread_id d1 = doc_thread_id d2 ->
  upsert d2 (upsert d1 docs) = upsert d2 docs.
Proof.
  intros He. induction docs as [|x docs IH].
  - rewrite !upsert_nil, upsert_cons, He, String.eqb_refl. reflexivity.
  - rewrite !(upsert_cons _ x). rewrite He.
    destruct (String.eqb (doc_thread_id x) (doc_thread_id d2)) eqn:Hx.
    + rewrite upsert_cons, He, String.eqb_refl. reflexivity.
    + rewrite upsert_cons, Hx, IH. reflexivity.
Qed.

Lemma upsert_commute d1 d2 docs :
  doc_thread_id d1 <> doc_thread_id d2 ->
  In (doc_thread_id d1) (map doc_thread_id docs) ->
  In (doc_thread_id d2) (map doc_thread_id docs) ->
  upsert d1 (upsert d2 docs) = upsert d2 (upsert d1 docs).
Proof.
  intros Hne. induction docs as [|x docs IH]; [intros []|].
  intros H1 H2. rewrite !(upsert_cons _ x).
  destruct (String.eqb_spec (doc_thread_id x) (doc_thread_id d1)) as [E1|N1];
    destruct (String.eqb_spec (doc_thread_id x) (doc_thread_id d2)) as [E2|N2].
  - congruence.
  - rewrite !upsert_cons.
    destruct (String.eqb_spec (doc_thread_id d1) (doc_thread_id d2)); [congruence|].
    destruct (String.eqb_spec (doc_thread_id x) (doc_thread_id d1)); [|congruence].
    destruct (String.eqb_spec (doc_thread_id x) (doc_thread_id d2)); [congruence|].
    reflexivity.
  - rewrite !upsert_cons.
    destruct (String.eqb_spec (doc_thread_id d2) (doc_thread_id d1)); [congruence|].
    destruct (String.eqb_spec (doc_thread_id x) (doc_thread_id d2)); [|congruence].
    destruct (String.eqb_spec (doc_thread_id x) (doc_thread_id d1)); [congruence|].
    reflexivity.
  - rewrite !upsert_cons.
    destruct (String.eqb_spec (doc_thread_id x) (doc_thread_id d1)); [congruence|].
    destruct (String.eqb_spec (doc_thread_id x) (doc_thread_id d2)); [congruence|].
    f_equal. cbn [map In] in H1, H2.
    apply IH; [destruct H1|destruct H2]; congruence.
Qed.

(** X23.  Writes compose by thread id.  The last write for an id wins: a
    write followed by a write of a document with the same id leaves the
    collection as the second write alone would, so writing a document twice
    is the same as writing it once.  Writes for two different ids that the
    collection already holds can be made in either order. *)
Theorem writes_compose_by_thread_id docs d1 d2 :
  (doc_thread_id d1 = doc_thread_id d2 ->
   upsert d2 (upsert d1 docs) = upsert d2 docs)
  /\ upsert d1 (upsert d1 docs) = upsert d1 docs
  /\ (doc_thread_id d1 <> doc_thread_id d2 ->
      In (doc_thread_id d1) (stored_ids (mkWorld docs 0 0)) ->
      In (doc_thread_id d2) (stored_ids (mkWorld docs 0 0)) ->
      upsert d1 (upsert d2 docs) = upsert d2 (upsert d1 docs)).
Proof.
  split; [apply upsert_overwrite|]. split; [apply upsert_overwrite; reflexivity|].
  apply upsert_commute.
Qed.
